(** * Account service: validation rules and HTTP contract

    A shallow embedding of [service/routes.py] (the request handlers, the
    content-type check and the account validator) together with the parts
    of Python, Flask and SQLAlchemy it calls, and the proofs of the
    properties the specification states about it. *)

From Stdlib Require Import ZArith NArith List Bool Ascii String DecimalString Lia.
From stdpp Require Import base option list sorting gmap strings.

Local Open Scope Z_scope.

(** ** Python values

    A Python [str] is a sequence of Unicode code points.  The values are
    those [request.get_json()] can produce. *)

Abbreviation pystr := (list N).

(** A literal of the source, as code points. *)
Definition py (s : string) : pystr := map N_of_ascii (list_ascii_of_string s).
Arguments py : simpl never.

#[warnings="-register-all"]
Inductive value : Type :=
  | VNone
  | VBool (b : bool)
  | VInt (n : Z)
  | VFloat (bits : N)
  | VStr (s : pystr)
  | VList (l : list value)
  | VDict (d : gmap pystr value).

Abbreviation dict := (gmap pystr value).

(** ** Exceptions *)

Inductive exn : Type :=
  | KeyError (key : pystr)
  | TypeError
  | ValueError
  | AttributeError
  | InvalidRequestError
  | DataValidationError
  | HTTPException (code : Z) (description : pystr).

Inductive result (A : Type) : Type :=
  | Ok (a : A)
  | Raise (e : exn).
Arguments Ok {A} a.
Arguments Raise {A} e.

#[global] Instance result_ret : MRet result := fun A a => Ok a.
#[global] Instance result_bind : MBind result := fun A B f m =>
  match m with
  | Ok a => f a
  | Raise e => Raise e
  end.

(** [try: body except handles: fallback]. *)
Definition try_except {A} (body : result A) (handles : exn -> bool)
    (fallback : result A) : result A :=
  match body with
  | Ok a => Ok a
  | Raise e => if handles e then fallback else Raise e
  end.

(** ** Built-in operations of [dict] and [isinstance] *)

Definition isinstance_str (v : value) : bool :=
  match v with
  | VStr _ => true
  | _ => false
  end.

(** [d.get(k)]: the value, or [None] when the key is missing. *)
Definition dict_get (d : dict) (k : pystr) : value := default VNone (d !! k).

(** [d[k]]: raises [KeyError] when the key is missing. *)
Definition dict_getitem (d : dict) (k : pystr) : result value :=
  match d !! k with
  | Some v => Ok v
  | None => Raise (KeyError k)
  end.

(** [k in d]. *)
Definition dict_contains (k : pystr) (d : dict) : bool :=
  match d !! k with
  | Some _ => true
  | None => false
  end.

(** ** Regular expressions ([re.match])

    The constructs the e-mail pattern needs: [^], [$], an escaped literal
    and a character set under [+]. *)

Inductive item : Type :=
  | Bol
  | Eol
  | Lit (c : N)
  | PlusSet (p : N -> bool).

Definition at_end (s : pystr) : bool :=
  match s with
  | [] => true
  | [c] => N.eqb c 10
  | _ => false
  end.

(** Backtracking matcher: [i] counts the code points already consumed,
    [s] is what is left of the subject.  [+] is greedy and gives back one
    code point at a time.  The match need not reach the end of the subject
    ([re.match], not [re.fullmatch]). *)
Fixpoint match_here (its : list item) (i : nat) (s : pystr) {struct its} : bool :=
  match its with
  | [] => true
  | Bol :: rest => Nat.eqb i 0 && match_here rest i s
  | Eol :: rest => at_end s && match_here rest i s
  | Lit c :: rest =>
      match s with
      | x :: s' => N.eqb x c && match_here rest (S i) s'
      | [] => false
      end
  | PlusSet p :: rest =>
      (fix more (i : nat) (s : pystr) {struct s} : bool :=
         match s with
         | x :: s' => p x && (more (S i) s' || match_here rest (S i) s')
         | [] => false
         end) i s
  end.

(** [re.match(pattern, v) is not None]; [re.match] raises [TypeError] when
    the subject is not a string. *)
Definition re_match (pattern : list item) (v : value) : result bool :=
  match v with
  | VStr s => Ok (match_here pattern 0%nat s)
  | _ => Raise TypeError
  end.

(** What the pattern language means, as a relation: [Matches its i w rest]
    holds when [its], started after [i] code points of the subject, can
    consume exactly [w] and leave [rest].  [$] holds at the end of the
    subject and just before a final newline. *)
Inductive Matches : list item -> nat -> pystr -> pystr -> Prop :=
  | Matches_nil i rest :
      Matches [] i [] rest
  | Matches_bol its w rest :
      Matches its 0%nat w rest ->
      Matches (Bol :: its) 0%nat w rest
  | Matches_eol its i w rest :
      at_end (w ++ rest) = true ->
      Matches its i w rest ->
      Matches (Eol :: its) i w rest
  | Matches_lit c its i w rest :
      Matches its (S i) w rest ->
      Matches (Lit c :: its) i (c :: w) rest
  | Matches_plus p its i u w rest :
      u <> [] ->
      forallb p u = true ->
      Matches its (i + length u)%nat w rest ->
      Matches (PlusSet p :: its) i (u ++ w) rest.

(** ** Calendar dates ([datetime.date]) *)

Record date : Type := Date { year : Z; month : Z; day : Z }.

Definition is_leap (y : Z) : bool :=
  (y mod 4 =? 0) && (negb (y mod 100 =? 0) || (y mod 400 =? 0)).

Definition days_in_month (y m : Z) : Z :=
  if m =? 2 then (if is_leap y then 29 else 28)
  else if (m =? 4) || (m =? 6) || (m =? 9) || (m =? 11) then 30
  else 31.

(** The constructor [date(year, month, day)] raises [ValueError] outside
    the calendar. *)
Definition new_date (y m d : Z) : result date :=
  if (1 <=? y) && (y <=? 9999) && (1 <=? m) && (m <=? 12)
     && (1 <=? d) && (d <=? days_in_month y m)
  then Ok (Date y m d)
  else Raise ValueError.

Definition digit_val (c : N) : option Z :=
  if (48 <=? c)%N && (c <=? 57)%N then Some (Z.of_N c - 48) else None.

Fixpoint parse_digits (n : nat) (acc : Z) (s : pystr) : option (Z * pystr) :=
  match n with
  | O => Some (acc, s)
  | S n' =>
      match s with
      | c :: s' =>
          match digit_val c with
          | Some v => parse_digits n' (acc * 10 + v) s'
          | None => None
          end
      | [] => None
      end
  end.

Definition expect_dash (s : pystr) : option pystr :=
  match s with
  | c :: s' => if N.eqb c 45 then Some s' else None
  | [] => None
  end.

Definition parse_isoformat_date (s : pystr) : option (Z * Z * Z) :=
  '(y, s1) ← parse_digits 4 0 s;
  s2 ← expect_dash s1;
  '(m, s3) ← parse_digits 2 0 s2;
  s4 ← expect_dash s3;
  '(d, _) ← parse_digits 2 0 s4;
  Some (y, m, d).

(** *** The interpreter

    Nothing in the sources fixes the Python version, and
    [date.fromisoformat] is not the same function in all of them: up to
    3.10 it reads the ten characters [YYYY-MM-DD] and nothing else; from
    3.11 it also reads [YYYYMMDD] and the ISO week dates [YYYY-Www],
    [YYYYWww], [YYYY-Www-D] and [YYYYWwwD].  The model has both; the
    second follows [Modules/_datetimemodule.c] of CPython 3.11. *)
Inductive python : Type :=
  | cpython_3_10   (* 3.7 to 3.10 *)
  | cpython_3_11.  (* 3.11 *)

(** The C function works on the UTF-8 bytes of the string
    ([PyUnicode_AsUTF8AndSize]), which do not exist for a lone
    surrogate. *)
Definition utf8_encode_char (c : N) : option (list N) :=
  if (c <? 128)%N then Some [c]
  else if (c <? 2048)%N then Some [192 + c / 64; 128 + c mod 64]%N
  else if (c <? 65536)%N then
    if (55296 <=? c)%N && (c <=? 57343)%N then None
    else Some [224 + c / 4096; 128 + (c / 64) mod 64; 128 + c mod 64]%N
  else if (c <? 1114112)%N then
    Some [240 + c / 262144; 128 + (c / 4096) mod 64;
          128 + (c / 64) mod 64; 128 + c mod 64]%N
  else None.

Fixpoint utf8_encode (s : pystr) : option (list N) :=
  match s with
  | [] => Some []
  | c :: s' =>
      b ← utf8_encode_char c;
      bs ← utf8_encode s';
      Some (b ++ bs)
  end.

(** The calendar arithmetic of [_datetimemodule.c].  [/] and [%] of C
    truncate towards zero ([Z.quot], [Z.rem]); a table read outside the
    table, which the C code does only for the year 0000 of a week date,
    reads 0 here, and the date is refused there whatever is read. *)
Definition _days_before_month : list Z :=
  [0; 0; 31; 59; 90; 120; 151; 181; 212; 243; 273; 304; 334].

Definition _days_in_month : list Z :=
  [0; 31; 28; 31; 30; 31; 30; 31; 31; 30; 31; 30; 31].

Definition table_at (table : list Z) (i : Z) : Z := nth (Z.to_nat i) table 0.

Definition c_days_in_month (y m : Z) : Z :=
  if (m =? 2) && is_leap y then 29 else table_at _days_in_month m.

Definition days_before_year (year : Z) : Z :=
  let y := year - 1 in
  y * 365 + Z.quot y 4 - Z.quot y 100 + Z.quot y 400.

Definition days_before_month (y m : Z) : Z :=
  let days := table_at _days_before_month m in
  if (2 <? m) && is_leap y then days + 1 else days.

Definition ymd_to_ord (y m d : Z) : Z :=
  days_before_year y + days_before_month y m + d.

Definition weekday (y m d : Z) : Z := Z.rem (ymd_to_ord y m d + 6) 7.

Definition iso_week1_monday (year : Z) : Z :=
  let first_day := ymd_to_ord year 1 1 in
  let first_weekday := Z.rem (first_day + 6) 7 in
  let week1_monday := first_day - first_weekday in
  if 3 <? first_weekday then week1_monday + 7 else week1_monday.

Definition ord_to_ymd (ordinal : Z) : Z * Z * Z :=
  let ordinal := ordinal - 1 in
  let n400 := Z.quot ordinal 146097 in
  let n := Z.rem ordinal 146097 in
  let year := n400 * 400 + 1 in
  let n100 := Z.quot n 36524 in
  let n := Z.rem n 36524 in
  let n4 := Z.quot n 1461 in
  let n := Z.rem n 1461 in
  let n1 := Z.quot n 365 in
  let n := Z.rem n 365 in
  let year := year + n100 * 100 + n4 * 4 + n1 in
  if (n1 =? 4) || (n100 =? 4) then (year - 1, 12, 31)
  else
    let leapyear := (n1 =? 3) && (negb (n4 =? 24) || (n100 =? 3)) in
    let month := Z.shiftr (n + 50) 5 in
    let preceding :=
      table_at _days_before_month month
      + (if (2 <? month) && leapyear then 1 else 0) in
    let '(month, preceding) :=
      if n <? preceding
      then (month - 1, preceding - c_days_in_month year (month - 1))
      else (month, preceding) in
    (year, month, n - preceding + 1).

Definition iso_to_ymd (iso_year iso_week iso_day : Z) : option (Z * Z * Z) :=
  let out_of_range :=
    if (iso_week <=? 0) || (53 <=? iso_week) then
      if iso_week =? 53 then
        let first_weekday := weekday iso_year 1 1 in
        negb ((first_weekday =? 3)
              || ((first_weekday =? 2) && is_leap iso_year))
      else true
    else false in
  if out_of_range then None
  else if (iso_day <=? 0) || (8 <=? iso_day) then None
  else
    let day_1 := iso_week1_monday iso_year in
    let day_offset := (iso_week - 1) * 7 + iso_day - 1 in
    Some (ord_to_ymd (day_1 + day_offset)).

Definition starts_with (c : N) (p : list N) : bool :=
  match p with
  | x :: _ => N.eqb x c
  | [] => false
  end.

(** [parse_isoformat_date] of 3.11, on the bytes.  What is left of the
    string after the day is not looked at. *)
Definition parse_isoformat_date_3_11 (bytes : list N) : option (Z * Z * Z) :=
  '(year, p) ← parse_digits 4 0 bytes;
  let uses_separator := starts_with 45 p in
  let p := if uses_separator then tail p else p in
  if starts_with 87 p then
    '(iso_week, p) ← parse_digits 2 0 (tail p);
    iso_day ←
      match p with
      | [] => Some 1
      | _ :: _ =>
          p ← (if uses_separator then expect_dash p else Some p);
          '(iso_day, _) ← parse_digits 1 0 p;
          Some iso_day
      end;
    iso_to_ymd year iso_week iso_day
  else
    '(month, p) ← parse_digits 2 0 p;
    p ← (if uses_separator then expect_dash p else Some p);
    '(day, _) ← parse_digits 2 0 p;
    Some (year, month, day).

(** [date.fromisoformat]: [TypeError] for a non-string, [ValueError] for a
    string the interpreter's parser does not read or that names no date
    of the calendar. *)
Definition date_fromisoformat (interpreter : python) (v : value) : result date :=
  match v with
  | VStr s =>
      match interpreter with
      | cpython_3_10 =>
          if Nat.eqb (length s) 10 then
            match parse_isoformat_date s with
            | Some (y, m, d) => new_date y m d
            | None => Raise ValueError
            end
          else Raise ValueError
      | cpython_3_11 =>
          match utf8_encode s with
          | Some bytes =>
              let len := length bytes in
              if Nat.eqb len 7 || Nat.eqb len 8 || Nat.eqb len 10 then
                match parse_isoformat_date_3_11 bytes with
                | Some (y, m, d) => new_date y m d
                | None => Raise ValueError
                end
              else Raise ValueError
          | None => Raise ValueError
          end
      end
  | _ => Raise TypeError
  end.

Definition digit_char (v : Z) : N := Z.to_N (48 + v mod 10).

(** [date.isoformat()], ["%04d-%02d-%02d"]. *)
Definition isoformat (d : date) : pystr :=
  [ digit_char (year d / 1000); digit_char (year d / 100);
    digit_char (year d / 10); digit_char (year d); 45%N;
    digit_char (month d / 10); digit_char (month d); 45%N;
    digit_char (day d / 10); digit_char (day d) ].

(** The basic form of ISO 8601, ["%04d%02d%02d"]. *)
Definition isoformat_basic (d : date) : pystr :=
  [ digit_char (year d / 1000); digit_char (year d / 100);
    digit_char (year d / 10); digit_char (year d);
    digit_char (month d / 10); digit_char (month d);
    digit_char (day d / 10); digit_char (day d) ].

(** [str(n)] for an [int]. *)
Definition str_of_int (n : Z) : pystr := py (NilZero.string_of_int (Z.to_int n)).
Arguments str_of_int : simpl never.

(** ** The account entity

    [service/models.py] is not among the sources; the entity and its
    methods follow sections 3, 4.2 and 4.3 of the specification. *)

Module Account.

(** Modelled from the spec: the class [Account] of [service/models.py],
    section 3: a flat record; every attribute is unset ([None]) on a new
    instance, and [id] stays unset until the repository creates the row. *)
Record t : Type := Build {
  id : option Z;
  name : option pystr;
  email : option pystr;
  address : option pystr;
  phone_number : option pystr;
  date_joined : option date
}.

End Account.

(** Modelled from the spec: the constructor [Account()] of
    [service/models.py]. *)
Definition Account_new : Account.t :=
  Account.Build None None None None None None.

Definition json_of_opt_str (o : option pystr) : value :=
  match o with
  | Some s => VStr s
  | None => VNone
  end.

(** Modelled from the spec: [Account.serialize] of [service/models.py],
    section 4.3: the keys [id, name, email, address, phone_number,
    date_joined], the date rendered as [YYYY-MM-DD], an absent value
    rendered as null. *)
Definition Account_serialize (self : Account.t) : dict :=
  <[py "id" := match Account.id self with Some i => VInt i | None => VNone end]>
  (<[py "name" := json_of_opt_str (Account.name self)]>
  (<[py "email" := json_of_opt_str (Account.email self)]>
  (<[py "address" := json_of_opt_str (Account.address self)]>
  (<[py "phone_number" := json_of_opt_str (Account.phone_number self)]>
  (<[py "date_joined" := json_of_opt_str (isoformat <$> Account.date_joined self)]>
   ∅))))).

(** ** The store and the SQLAlchemy session

    The committed table with the id sequence, and the session of one
    request: the objects it has changed ([Some]) or marked for deletion
    ([None]), written to the table by [commit] and dropped when the
    request ends. *)

Record database : Type := Database {
  table : gmap Z Account.t;
  id_seq : Z
}.

Record unit_of_work : Type := UnitOfWork {
  db : database;
  session : gmap Z (option Account.t)
}.

Definition flush (pending : option (option Account.t)) (row : option Account.t)
    : option Account.t :=
  match pending with
  | Some change => change
  | None => row
  end.

(** ** Requests, responses and the handler monad *)

Record Request : Type := MkRequest {
  (** [request.headers.get("Content-Type")] *)
  content_type_header : option pystr;
  (** what [request.get_json()] does: the decoded body, or the exception
      the framework raises for it *)
  json : result value
}.

Record env : Type := Env {
  request : Request;
  (** [date.today()] when the request is served *)
  today : date
}.

Inductive body : Type :=
  | JSON (v : value)
  | Text (s : pystr).

Record response : Type := Response {
  status_code : Z;
  data : body;
  headers : list (pystr * pystr)
}.

(** A handler reads the request, changes the unit of work and returns or
    raises. *)
Definition handler (A : Type) : Type :=
  env -> unit_of_work -> result A * unit_of_work.

#[global] Instance handler_ret : MRet handler := fun A a _ u => (Ok a, u).
#[global] Instance handler_bind : MBind handler := fun A B f m e u =>
  match m e u with
  | (Ok a, u') => f a e u'
  | (Raise x, u') => (Raise x, u')
  end.

Definition lift {A} (r : result A) : handler A := fun _ u => (r, u).

(** [flask.abort]. *)
Definition abort {A} (code : Z) (description : pystr) : handler A :=
  lift (Raise (HTTPException code description)).

Definition get_json : handler value := fun e u => (json (request e), u).

Definition headers_get_content_type : handler (option pystr) :=
  fun e u => (Ok (content_type_header (request e)), u).

Definition date_today : handler date := fun e u => (Ok (today e), u).

(** [Account.query.get(id)]: the session's object if it holds one, else
    the committed row. *)
Definition Account_query_get (account_id : Z) : handler (option Account.t) :=
  fun _ u =>
    (Ok (match session u !! account_id with
         | Some change => change
         | None => table (db u) !! account_id
         end), u).

(** Attribute assignments on [account]: if it is a row of the session
    (it has an id), the session now holds the changed object. *)
Definition db_session_dirty (account : Account.t) : handler unit :=
  fun _ u =>
    match Account.id account with
    | Some i => (Ok tt, UnitOfWork (db u) (<[i := Some account]> (session u)))
    | None => (Ok tt, u)
    end.

(** [db.session.delete(account)]. *)
Definition db_session_delete (account : Account.t) : handler unit :=
  fun _ u =>
    match Account.id account with
    | Some i => (Ok tt, UnitOfWork (db u) (<[i := None]> (session u)))
    | None => (Raise InvalidRequestError, u)
    end.

(** [db.session.commit()]. *)
Definition db_session_commit : handler unit :=
  fun _ u =>
    (Ok tt, UnitOfWork (Database (merge flush (session u) (table (db u)))
                                 (id_seq (db u))) ∅).

(** [Account.query.all()]: every row, with the pending changes of the
    session flushed first.  The rows come in the order of their ids, which
    for ids drawn from a sequence is the order of creation. *)
Definition id_le (x y : Z * Account.t) : Prop := x.1 <= y.1.

#[global] Instance id_le_dec : RelDecision id_le :=
  fun x y => decide (x.1 <= y.1).

Definition Account_query_all : handler (list Account.t) :=
  fun _ u =>
    (Ok (map snd
           (merge_sort id_le
              (map_to_list (merge flush (session u) (table (db u)))))),
     u).

(** The same account under the id [i]. *)
Definition with_id (i : Z) (a : Account.t) : Account.t :=
  Account.Build (Some i) (Account.name a) (Account.email a) (Account.address a)
    (Account.phone_number a) (Account.date_joined a).

(** Modelled from the spec: [Account.create] of [service/models.py],
    section 4.2: assigns a new unique id, persists the fields and commits
    before returning. *)
Definition Account_create (self : Account.t) : handler Account.t :=
  fun _ u =>
    let i := id_seq (db u) in
    let created := with_id i self in
    (Ok created,
     UnitOfWork (Database (merge flush (<[i := Some created]> (session u))
                                 (table (db u)))
                          (i + 1)) ∅).

(** Modelled from the spec: [Account.find] of [service/models.py],
    section 4.2: the record or an absent indicator, never an exception. *)
Definition Account_find (account_id : Z) : handler (option Account.t) :=
  Account_query_get account_id.

(** Modelled from the spec: the constants of [service/common/status.py],
    with the numbers section 4.3 gives them. *)
Definition HTTP_200_OK : Z := 200.
Definition HTTP_201_CREATED : Z := 201.
Definition HTTP_204_NO_CONTENT : Z := 204.
Definition HTTP_400_BAD_REQUEST : Z := 400.
Definition HTTP_404_NOT_FOUND : Z := 404.
Definition HTTP_415_UNSUPPORTED_MEDIA_TYPE : Z := 415.
Definition HTTP_500_INTERNAL_SERVER_ERROR : Z := 500.

(** Modelled from the spec: the error handlers of
    [service/common/error_handlers.py], section 7: an abort is answered
    with its status and message, a failed deserialization with 400, any
    other exception with a 5xx. *)
Definition error_response (e : exn) : response :=
  match e with
  | HTTPException code description => Response code (Text description) []
  | DataValidationError => Response HTTP_400_BAD_REQUEST (Text (py "Bad Request")) []
  | _ => Response HTTP_500_INTERNAL_SERVER_ERROR (Text (py "Internal Server Error")) []
  end.

(** Flask serving one request: the view runs on a fresh session over the
    committed store, its result or exception becomes the response, and the
    session is removed, which discards what was not committed. *)
Definition serve (view : handler response) (e : env) (store : database)
    : response * database :=
  match view e (UnitOfWork store ∅) with
  | (Ok r, u) => (r, db u)
  | (Raise x, u) => (error_response x, db u)
  end.

(** ** Example data

    The payloads of the test suite and of section 8 of the specification.
    They are ASCII, so the answers do not depend on the Unicode table; the
    examples run with the table that has no alphanumeric above ASCII. *)

Definition ascii_only : N -> bool := fun _ => false.

Definition the_day : date := Date 2023 5 17.

Definition ann_payload : dict :=
  <[py "name" := VStr (py "Ann")]>
  (<[py "email" := VStr (py "ann@example.com")]>
  (<[py "address" := VStr (py "1 Rd")]> ∅)).

Definition update_payload : dict :=
  <[py "name" := VStr (py "Updated Account Name")]>
  (<[py "email" := VStr (py "updated.email@example.com")]>
  (<[py "address" := VStr (py "123 Updated St")]>
  (<[py "phone_number" := VStr (py "1234567890")]>
  (<[py "date_joined" := VStr (py "2022-12-31")]> ∅)))).

Definition invalid_payload : dict :=
  <[py "name" := VInt 1234]> (<[py "email" := VStr (py "bad")]> ∅).

Definition february_30_payload : dict :=
  <[py "date_joined" := VStr (py "2023-02-30")]> ann_payload.

Definition empty_strings_payload : dict :=
  <[py "name" := VStr []]>
  (<[py "email" := VStr (py "ann@example.com")]>
  (<[py "address" := VStr []]>
  (<[py "phone_number" := VStr []]> ∅))).

Definition json_request (content_type : option pystr) (payload : dict) : env :=
  Env (MkRequest content_type (Ok (VDict payload))) the_day.

Definition ann_fields : Account.t :=
  Account.Build None (Some (py "Ann")) (Some (py "ann@example.com"))
    (Some (py "1 Rd")) None (Some the_day).

Definition ann_email : pystr := py "ann@example.com".

Definition payload_with_id : dict := <[py "id" := VInt 99]> ann_payload.

Definition list_body_request : env :=
  Env (MkRequest (Some (py "application/json")) (Ok (VList []))) the_day.

Definition compact_date_payload : dict :=
  <[py "date_joined" := VStr (py "20221231")]> ann_payload.

Definition empty_store : database := Database ∅ 1.

(** The store after Ann's account has been created in the empty store. *)
Definition ann_store : database := Database (<[1 := with_id 1 ann_fields]> ∅) 2.

(** ** The validator ([validate_email], [validate_account_data]) *)

Section Service.

(** [str.isalnum] on the code points above ASCII (the Unicode character
    database); on ASCII the class is written out below. *)
Variable unicode_alnum : N -> bool.

(** The Python the service runs on, for [date.fromisoformat]. *)
Variable interpreter : python.

(** [\w] of a [str] pattern: alphanumeric or underscore. *)
Definition is_word (c : N) : bool :=
  if (c <? 128)%N then
    ((48 <=? c)%N && (c <=? 57)%N) || ((65 <=? c)%N && (c <=? 90)%N)
    || ((97 <=? c)%N && (c <=? 122)%N) || (c =? 95)%N
  else unicode_alnum c.

(** [[\w\.-]]. *)
Definition is_word_dot_dash (c : N) : bool :=
  is_word c || (c =? 46)%N || (c =? 45)%N.

(** [r'^[\w\.-]+@[\w\.-]+\.\w+$']. *)
Definition pattern : list item :=
  [ Bol; PlusSet is_word_dot_dash; Lit 64; PlusSet is_word_dot_dash;
    Lit 46; PlusSet is_word; Eol ].

Definition validate_email (email : value) : result bool :=
  re_match pattern email.

Definition handles_type_or_value_error (e : exn) : bool :=
  match e with
  | TypeError | ValueError => true
  | _ => false
  end.

(** The body of [validate_account_data] once [account_data] is known to
    have the [dict] methods. *)
Definition validate_account_dict (account_data : dict) : result bool :=
  if negb (isinstance_str (dict_get account_data (py "name"))) then Ok false else
  bad_email ←
    (if negb (isinstance_str (dict_get account_data (py "email"))) then Ok true
     else email ← dict_getitem account_data (py "email");
          ok ← validate_email email;
          Ok (negb ok));
  if (bad_email : bool) then Ok false else
  if negb (isinstance_str (dict_get account_data (py "address"))) then Ok false else
  bad_phone ←
    (if dict_contains (py "phone_number") account_data then
       phone ← dict_getitem account_data (py "phone_number");
       Ok (negb (isinstance_str phone))
     else Ok false);
  if (bad_phone : bool) then Ok false else
  returned ←
    (if dict_contains (py "date_joined") account_data then
       try_except
         (joined ← dict_getitem account_data (py "date_joined");
          _ ← date_fromisoformat interpreter joined;
          Ok None)
         handles_type_or_value_error
         (Ok (Some false))
     else Ok None);
  match returned with
  | Some b => Ok b
  | None => Ok true
  end.

(** [account_data.get] raises [AttributeError] on a JSON value that is
    not an object. *)
Definition validate_account_data (account_data : value) : result bool :=
  match account_data with
  | VDict d => validate_account_dict d
  | _ => Raise AttributeError
  end.


(** ** Deserialization *)

(** Modelled from the spec: [Account.deserialize] of [service/models.py],
    sections 4.1 and 4.3: the body must deserialize into valid account
    fields, else the request fails with 400; the entity's fields are
    populated from the matching keys, unknown keys are ignored, a missing
    [phone_number] leaves the field unset and a missing [date_joined]
    gives the default, the current date; [id] is not touched. *)
Definition Account_deserialize (today : date) (self : Account.t) (data : value)
    : result Account.t :=
  match data with
  | VDict d =>
      match d !! py "name", d !! py "email", d !! py "address" with
      | Some (VStr n), Some (VStr e), Some (VStr a) =>
          if match_here pattern 0%nat e then
            phone ← match d !! py "phone_number" with
                    | None => Ok None
                    | Some (VStr p) => Ok (Some p)
                    | Some _ => Raise DataValidationError
                    end;
            joined ← match d !! py "date_joined" with
                     | None => Ok today
                     | Some v =>
                         match date_fromisoformat interpreter v with
                         | Ok parsed => Ok parsed
                         | Raise _ => Raise DataValidationError
                         end
                     end;
            Ok (Account.Build (Account.id self) (Some n) (Some e) (Some a)
                  phone (Some joined))
          else Raise DataValidationError
      | _, _, _ => Raise DataValidationError
      end
  | _ => Raise DataValidationError
  end.

(** The call [account.deserialize(data)] in a view: the fields are
    assigned on the object itself, so an object that the session holds (a
    row that was read, which has its id) becomes a pending change of the
    session; a new object is not in the session yet. *)
Definition call_deserialize (account : Account.t) (data : value)
    : handler Account.t :=
  now ← date_today;
  account ← lift (Account_deserialize now account data);
  db_session_dirty account;;
  mret account.

(** ** The views of [service/routes.py]

    The views of the account routes; the logging calls are left out. *)

Definition truthy_str (o : option pystr) : bool :=
  match o with
  | Some (_ :: _) => true
  | _ => false
  end.

Definition check_content_type (media_type : pystr) : handler unit :=
  content_type ← headers_get_content_type;
  if truthy_str content_type && bool_decide (content_type = Some media_type)
  then mret tt
  else abort HTTP_415_UNSUPPORTED_MEDIA_TYPE
         (py "Content-Type must be " ++ media_type).

Definition create_accounts : handler response :=
  check_content_type (py "application/json");;
  let account := Account_new in
  posted ← get_json;
  account ← call_deserialize account posted;
  account ← Account_create account;
  let message := Account_serialize account in
  let location_url := py "/" in
  mret (Response HTTP_201_CREATED (JSON (VDict message))
          [(py "Location", location_url)]).

Definition get_accounts (account_id : Z) : handler response :=
  account ← Account_find account_id;
  match account with
  | None =>
      abort HTTP_404_NOT_FOUND
        (py "Account with id [" ++ str_of_int account_id
           ++ py "] could not be found.")
  | Some account =>
      mret (Response HTTP_200_OK (JSON (VDict (Account_serialize account))) [])
  end.

Definition update_account (account_id : Z) : handler response :=
  account ← Account_query_get account_id;
  match account with
  | None =>
      abort HTTP_404_NOT_FOUND
        (py "Account with id [" ++ str_of_int account_id
           ++ py "] was not found.")
  | Some account =>
      account_data ← get_json;
      valid ← lift (validate_account_data account_data);
      if negb valid then
        abort HTTP_400_BAD_REQUEST (py "Invalid account data provided.")
      else
        account ← call_deserialize account account_data;
        db_session_commit;;
        mret (Response HTTP_200_OK (JSON (VDict (Account_serialize account))) [])
  end.

Definition delete_account (account_id : Z) : handler response :=
  account ← Account_query_get account_id;
  match account with
  | None =>
      abort HTTP_404_NOT_FOUND
        (py "Account with id [" ++ str_of_int account_id
           ++ py "] was not found.")
  | Some account =>
      db_session_delete account;;
      db_session_commit;;
      mret (Response HTTP_204_NO_CONTENT (Text []) [])
  end.

Definition health : handler response :=
  mret (Response HTTP_200_OK
          (JSON (VDict (<[py "status" := VStr (py "OK")]> ∅))) []).

Definition index : handler response :=
  mret (Response HTTP_200_OK
          (JSON (VDict (<[py "name" := VStr (py "Account REST API Service")]>
                       (<[py "version" := VStr (py "1.0")]> ∅)))) []).

Definition list_accounts : handler response :=
  accounts ← Account_query_all;
  let serialized_accounts :=
    map (fun account => VDict (Account_serialize account)) accounts in
  mret (Response HTTP_200_OK (JSON (VList serialized_accounts)) []).

(** The views of the service, and the stores it can be in: it starts
    with an empty table and serves one request after another. *)
Inductive is_view : handler response -> Prop :=
  | view_health : is_view health
  | view_index : is_view index
  | view_create_accounts : is_view create_accounts
  | view_list_accounts : is_view list_accounts
  | view_get_accounts account_id : is_view (get_accounts account_id)
  | view_update_account account_id : is_view (update_account account_id)
  | view_delete_account account_id : is_view (delete_account account_id).

Inductive reachable : database -> Prop :=
  | reachable_empty first_id :
      reachable (Database ∅ first_id)
  | reachable_serve store view e :
      reachable store -> is_view view ->
      reachable (snd (serve view e store)).

(** The rows of a table, in no particular order. *)
Definition rows_of (store : database) : list Account.t :=
  map snd (map_to_list (table store)).

(** ** The rules of section 4.1, as the specification words them *)

(** The string matches the e-mail pattern from its first code point. *)
Definition matches_email_pattern (s : pystr) : Prop :=
  exists w rest, s = w ++ rest /\ Matches pattern 0%nat w rest.

(** The string is [YYYY-MM-DD] for a day that exists in the calendar of
    [datetime.date] (years 1 to 9999). *)
Definition iso_calendar_date (s : pystr) : Prop :=
  exists y m d,
    1 <= y <= 9999 /\ 1 <= m <= 12 /\ 1 <= d <= days_in_month y m /\
    s = isoformat (Date y m d).

Definition name_rule (d : dict) : Prop :=
  exists s, d !! py "name" = Some (VStr s).

Definition email_rule (d : dict) : Prop :=
  exists s, d !! py "email" = Some (VStr s) /\ matches_email_pattern s.

Definition address_rule (d : dict) : Prop :=
  exists s, d !! py "address" = Some (VStr s).

Definition phone_number_rule (d : dict) : Prop :=
  forall v, d !! py "phone_number" = Some v -> exists s, v = VStr s.

Definition date_joined_rule (d : dict) : Prop :=
  forall v, d !! py "date_joined" = Some v ->
    exists s, v = VStr s /\ iso_calendar_date s.

Definition valid_account_fields (d : dict) : Prop :=
  name_rule d /\ email_rule d /\ address_rule d /\
  phone_number_rule d /\ date_joined_rule d.

(** The date rule with "parseable" read as what [date.fromisoformat] of
    the interpreter parses. *)
Definition date_joined_parses (d : dict) : Prop :=
  forall v, d !! py "date_joined" = Some v ->
    exists s dt, v = VStr s /\ date_fromisoformat interpreter (VStr s) = Ok dt.

Definition accepted_account_fields (d : dict) : Prop :=
  name_rule d /\ email_rule d /\ address_rule d /\
  phone_number_rule d /\ date_joined_parses d.

(** The date of the payload, if it has one, can only be [YYYY-MM-DD]:
    the interpreter reads nothing else, or the payload keeps the rule. *)
Definition date_in_extended_form (d : dict) : Prop :=
  interpreter = cpython_3_10 \/ date_joined_rule d.

(** The same rules as a boolean, field by field. *)
Definition field_is_str (d : dict) (k : pystr) : bool :=
  match d !! k with
  | Some (VStr _) => true
  | _ => false
  end.

Definition email_ok (d : dict) : bool :=
  match d !! py "email" with
  | Some (VStr s) => match_here pattern 0%nat s
  | _ => false
  end.

Definition optional_ok (d : dict) (k : pystr) (check : value -> bool) : bool :=
  match d !! k with
  | Some v => check v
  | None => true
  end.

Definition date_ok (v : value) : bool :=
  match date_fromisoformat interpreter v with
  | Ok _ => true
  | Raise _ => false
  end.

Definition rules_hold (d : dict) : bool :=
  field_is_str d (py "name") && email_ok d && field_is_str d (py "address")
  && optional_ok d (py "phone_number") isinstance_str
  && optional_ok d (py "date_joined") date_ok.

(** The store's invariant: a row is filed under its own id, and the id
    sequence is past every id in use. *)
Definition wf_store (store : database) : Prop :=
  forall i a, table store !! i = Some a ->
    Account.id a = Some i /\ i < id_seq store.

(** The account keys of a payload. *)
Definition account_keys : list pystr :=
  [py "name"; py "email"; py "address"; py "phone_number"; py "date_joined"].

(** The fields a payload gives are the fields the account holds, the
    date as the date the submitted string was read as. *)
Definition fields_stored (d : dict) (a : Account.t) : Prop :=
  d !! py "name" = Some (json_of_opt_str (Account.name a)) /\
  d !! py "email" = Some (json_of_opt_str (Account.email a)) /\
  d !! py "address" = Some (json_of_opt_str (Account.address a)) /\
  (forall v, d !! py "phone_number" = Some v ->
     v = json_of_opt_str (Account.phone_number a)) /\
  (forall v, d !! py "date_joined" = Some v ->
     exists dt, date_fromisoformat interpreter v = Ok dt /\
                Account.date_joined a = Some dt).

(** The fields a payload gives are the fields the account shows. *)
Definition fields_from (d : dict) (a : Account.t) : Prop :=
  forall k v, k ∈ account_keys -> d !! k = Some v ->
    Account_serialize a !! k = Some v.

(** Unfolds the binds of a view. *)
Ltac run_view :=
  unfold mbind, handler_bind, mret, handler_ret; cbn beta iota zeta.

(** ** The pattern matcher decides the pattern language *)

Lemma match_here_plus p rest i s :
  match_here (PlusSet p :: rest) i s =
  match s with
  | x :: s' =>
      p x && (match_here (PlusSet p :: rest) (S i) s' || match_here rest (S i) s')
  | [] => false
  end.
Proof. destruct s; reflexivity. Qed.

Lemma match_here_sound its :
  forall i s, match_here its i s = true ->
    exists w rest, s = w ++ rest /\ Matches its i w rest.
Proof.
  induction its as [|it its IH]; intros i s H.
  - exists [], s. split; [reflexivity | constructor].
  - destruct it as [| |c|p].
    + simpl in H. apply andb_true_iff in H as [Hi H].
      apply Nat.eqb_eq in Hi. subst i.
      destruct (IH _ _ H) as (w & rest & -> & HM).
      exists w, rest. split; [reflexivity | by constructor].
    + simpl in H. apply andb_true_iff in H as [He H].
      destruct (IH _ _ H) as (w & rest & -> & HM).
      exists w, rest. split; [reflexivity | by constructor].
    + simpl in H. destruct s as [|x s']; [discriminate|].
      apply andb_true_iff in H as [Hx H]. apply N.eqb_eq in Hx. subst x.
      destruct (IH _ _ H) as (w & rest & -> & HM).
      exists (c :: w), rest. split; [reflexivity | by constructor].
    + assert (Hplus : exists u w rest,
                u <> [] /\ forallb p u = true /\ s = u ++ w ++ rest /\
                Matches its (i + length u)%nat w rest).
      { revert i H. induction s as [|x s' IHs]; intros i H;
          rewrite match_here_plus in H; [discriminate|].
        apply andb_true_iff in H as [Hx H].
        apply orb_true_iff in H as [H|H].
        - destruct (IHs _ H) as (u & w & rest & Hu & Hp & -> & HM).
          exists (x :: u), w, rest.
          split; [done|]. split; [|split; [done|]].
          + simpl. by rewrite Hx, Hp.
          + simpl length. by replace (i + S (length u))%nat
              with (S i + length u)%nat by lia.
        - destruct (IH _ _ H) as (w & rest & -> & HM).
          exists [x], w, rest.
          split; [done|]. split; [|split; [done|]].
          + simpl. by rewrite Hx.
          + simpl length. by replace (i + 1)%nat with (S i) by lia. }
      destruct Hplus as (u & w & rest & Hu & Hp & -> & HM).
      exists (u ++ w), rest. split; [by rewrite app_assoc | by constructor].
Qed.

Lemma match_here_complete its i w rest :
  Matches its i w rest -> match_here its i (w ++ rest) = true.
Proof.
  induction 1 as [i rest|its w rest _ IH|its i w rest He _ IH
                 |c its i w rest _ IH|p its i u w rest Hu Hp _ IH].
  - reflexivity.
  - simpl. exact IH.
  - simpl. by rewrite He, IH.
  - simpl. by rewrite N.eqb_refl, IH.
  - rewrite <- app_assoc. revert i IH.
    induction u as [|x u IHu]; intros i IH; [done|].
    simpl in Hp. apply andb_true_iff in Hp as [Hx Hp].
    rewrite <- app_comm_cons, match_here_plus, Hx, andb_true_l.
    apply orb_true_iff. destruct u as [|x' u'].
    + right. simpl length in IH.
      by replace (i + 1)%nat with (S i) in IH by lia.
    + left. apply IHu; [done | done |].
      simpl length in *. by replace (S i + S (length u'))%nat
        with (i + S (S (length u')))%nat by lia.
Qed.

Lemma match_here_spec its s :
  match_here its 0%nat s = true <->
  exists w rest, s = w ++ rest /\ Matches its 0%nat w rest.
Proof.
  split.
  - apply match_here_sound.
  - intros (w & rest & -> & HM). by apply match_here_complete.
Qed.

(** The strings of the e-mail pattern, spelled out: a local part, [@], a
    domain, a dot and a last segment, with at most a newline after it. *)
Lemma matches_email_pattern_shape s :
  matches_email_pattern s <->
  exists local domain tld newline,
    s = local ++ 64%N :: domain ++ 46%N :: tld ++ newline /\
    local <> [] /\ forallb is_word_dot_dash local = true /\
    domain <> [] /\ forallb is_word_dot_dash domain = true /\
    tld <> [] /\ forallb is_word tld = true /\
    (newline = [] \/ newline = [10%N]).
Proof.
  unfold matches_email_pattern, pattern. split.
  - intros (w & rest & -> & HM).
    inversion HM as [|? ? ? H1| | |]; subst; clear HM.
    inversion H1 as [| | | |? ? ? local ? ? Hl Hlp H2]; subst; clear H1.
    inversion H2 as [| | |? ? ? ? ? H3|]; subst; clear H2.
    inversion H3 as [| | | |? ? ? domain ? ? Hd Hdp H4]; subst; clear H3.
    inversion H4 as [| | |? ? ? ? ? H5|]; subst; clear H4.
    inversion H5 as [| | | |? ? ? tld ? ? Ht Htp H6]; subst; clear H5.
    inversion H6 as [| |? ? ? ? Hend H7| |]; subst; clear H6.
    inversion H7; subst; clear H7.
    exists local, domain, tld, rest. rewrite app_nil_r.
    split; [by repeat (rewrite <- app_assoc; cbn [app])|].
    repeat (split; [done|]).
    destruct rest as [|c [|]]; [by left | | done].
    right. cbn in Hend. apply N.eqb_eq in Hend. by subst.
  - intros (local & domain & tld & newline & -> & Hl & Hlp & Hd & Hdp & Ht & Htp & Hnl).
    exists (local ++ 64%N :: domain ++ 46%N :: tld ++ []), newline. split.
    + rewrite app_nil_r. by repeat (rewrite <- app_assoc; cbn [app]).
    + constructor. constructor; [done..|]. constructor.
      constructor; [done..|]. constructor. constructor; [done..|].
      constructor; [|constructor]. by destruct Hnl as [->| ->].
Qed.

(** ** [fromisoformat] and [isoformat] are inverse to each other *)

Lemma digit_val_Some c v :
  digit_val c = Some v -> 0 <= v <= 9 /\ c = Z.to_N (48 + v).
Proof.
  unfold digit_val. intros H.
  destruct ((48 <=? c)%N && (c <=? 57)%N) eqn:Hc; [|discriminate].
  apply andb_true_iff in Hc as [H1 H2].
  apply N.leb_le in H1, H2. injection H as <-. lia.
Qed.

Lemma digit_val_char v :
  0 <= v <= 9 -> digit_val (Z.to_N (48 + v)) = Some v.
Proof.
  intros Hv. unfold digit_val.
  replace ((48 <=? Z.to_N (48 + v))%N && (Z.to_N (48 + v) <=? 57)%N) with true.
  - f_equal. lia.
  - symmetry. apply andb_true_iff. split; apply N.leb_le; lia.
Qed.

Lemma new_date_Ok y m d dt :
  new_date y m d = Ok dt ->
  dt = Date y m d /\ 1 <= y <= 9999 /\ 1 <= m <= 12 /\ 1 <= d <= days_in_month y m.
Proof.
  unfold new_date. intros H.
  destruct (_ && _) eqn:Hc in H; [|discriminate].
  injection H as <-.
  repeat (apply andb_true_iff in Hc as [Hc ?]).
  repeat match goal with
         | H : (_ <=? _) = true |- _ => apply Z.leb_le in H
         end.
  split; [reflexivity | lia].
Qed.

Lemma new_date_valid y m d :
  1 <= y <= 9999 -> 1 <= m <= 12 -> 1 <= d <= days_in_month y m ->
  new_date y m d = Ok (Date y m d).
Proof.
  intros Hy Hm Hd. unfold new_date.
  replace (_ && _) with true; [done|].
  symmetry. repeat (apply andb_true_iff; split); apply Z.leb_le; lia.
Qed.

Lemma fromisoformat_isoformat s dt :
  date_fromisoformat cpython_3_10 (VStr s) = Ok dt ->
  s = isoformat dt /\
  1 <= year dt <= 9999 /\ 1 <= month dt <= 12 /\
  1 <= day dt <= days_in_month (year dt) (month dt).
Proof.
  unfold date_fromisoformat. intros H.
  destruct (Nat.eqb (length s) 10) eqn:Hlen; [|discriminate].
  apply Nat.eqb_eq in Hlen.
  do 11 (destruct s as [|? s]; try discriminate Hlen). clear Hlen.
  unfold parse_isoformat_date in H. cbn [parse_digits expect_dash] in H.
  repeat match type of H with
         | context [digit_val ?c] =>
             let E := fresh "E" in
             destruct (digit_val c) eqn:E; cbn in H; [|discriminate H];
             apply digit_val_Some in E as [? ->]
         | context [N.eqb ?c 45] =>
             let E := fresh "E" in
             destruct (N.eqb c 45) eqn:E; cbn in H; [|discriminate H];
             apply N.eqb_eq in E; subst c
         end.
  apply new_date_Ok in H as (-> & Hy & Hm & Hd).
  split; [|done]. unfold isoformat, digit_char. cbn [year month day].
  repeat f_equal; Z.div_mod_to_equations; lia.
Qed.

Lemma utf8_encode_char_ascii c :
  (c < 128)%N -> utf8_encode_char c = Some [c].
Proof.
  intros Hc. unfold utf8_encode_char.
  by rewrite (proj2 (N.ltb_lt c 128) Hc).
Qed.

Lemma digit_char_ascii v : (digit_char v < 128)%N.
Proof. unfold digit_char. pose proof (Z.mod_pos_bound v 10). lia. Qed.

Lemma utf8_encode_isoformat dt : utf8_encode (isoformat dt) = Some (isoformat dt).
Proof.
  unfold isoformat. cbn [utf8_encode].
  rewrite !utf8_encode_char_ascii by (apply digit_char_ascii || done).
  reflexivity.
Qed.

Lemma isoformat_fromisoformat y m d :
  1 <= y <= 9999 -> 1 <= m <= 12 -> 1 <= d <= days_in_month y m ->
  date_fromisoformat interpreter (VStr (isoformat (Date y m d)))
  = Ok (Date y m d).
Proof.
  intros Hy Hm Hd.
  assert (d <= 31).
  { unfold days_in_month in Hd. repeat case_match; lia. }
  assert (Hdig : forall v, digit_val (Z.to_N (48 + v `mod` 10)) = Some (v `mod` 10)).
  { intros v. apply digit_val_char. pose proof (Z.mod_pos_bound v 10). lia. }
  unfold date_fromisoformat. destruct interpreter.
  - unfold isoformat, parse_isoformat_date, digit_char.
    cbn [length Nat.eqb year month day parse_digits expect_dash].
    rewrite !Hdig. cbn [mbind option_bind expect_dash N.eqb Pos.eqb].
    rewrite !Hdig. cbn [mbind option_bind expect_dash N.eqb Pos.eqb].
    rewrite !Hdig. cbn [mbind option_bind expect_dash N.eqb Pos.eqb].
    replace (_ * 10 + y `mod` 10) with y by (Z.div_mod_to_equations; lia).
    replace (_ * 10 + m `mod` 10) with m by (Z.div_mod_to_equations; lia).
    replace (_ * 10 + d `mod` 10) with d by (Z.div_mod_to_equations; lia).
    by apply new_date_valid.
  - assert (Hnw : forall v, (Z.to_N (48 + v `mod` 10) =? 87)%N = false).
    { intros v. apply N.eqb_neq. pose proof (Z.mod_pos_bound v 10). lia. }
    rewrite utf8_encode_isoformat.
    unfold isoformat, digit_char. cbn [length Nat.eqb orb year month day].
    unfold parse_isoformat_date_3_11. cbn [parse_digits].
    rewrite !Hdig. cbn [mbind option_bind starts_with N.eqb Pos.eqb tail].
    rewrite Hnw, !Hdig.
    cbn [mbind option_bind expect_dash N.eqb Pos.eqb parse_digits].
    rewrite !Hdig. cbn [mbind option_bind].
    replace (_ * 10 + y `mod` 10) with y by (Z.div_mod_to_equations; lia).
    replace (_ * 10 + m `mod` 10) with m by (Z.div_mod_to_equations; lia).
    replace (_ * 10 + d `mod` 10) with d by (Z.div_mod_to_equations; lia).
    by apply new_date_valid.
Qed.

(** Python 3.11 reads every date of the calendar in the basic form
    too. *)
Lemma basic_fromisoformat y m d :
  1 <= y <= 9999 -> 1 <= m <= 12 -> 1 <= d <= days_in_month y m ->
  date_fromisoformat cpython_3_11 (VStr (isoformat_basic (Date y m d)))
  = Ok (Date y m d).
Proof.
  intros Hy Hm Hd.
  assert (d <= 31).
  { unfold days_in_month in Hd. repeat case_match; lia. }
  assert (Hdig : forall v, digit_val (Z.to_N (48 + v `mod` 10)) = Some (v `mod` 10)).
  { intros v. apply digit_val_char. pose proof (Z.mod_pos_bound v 10). lia. }
  assert (Hnot : forall v c, (c = 45 \/ c = 87)%N ->
                   (Z.to_N (48 + v `mod` 10) =? c)%N = false).
  { intros v c Hc. apply N.eqb_neq. pose proof (Z.mod_pos_bound v 10). lia. }
  assert (Henc : utf8_encode (isoformat_basic (Date y m d))
                 = Some (isoformat_basic (Date y m d))).
  { unfold isoformat_basic. cbn [utf8_encode].
    rewrite !utf8_encode_char_ascii by (apply digit_char_ascii || done).
    reflexivity. }
  unfold date_fromisoformat. rewrite Henc.
  unfold isoformat_basic, digit_char. cbn [length Nat.eqb orb year month day].
  unfold parse_isoformat_date_3_11. cbn [parse_digits].
  repeat (progress (rewrite ?Hdig, ?Hnot by auto;
                    cbn [mbind option_bind starts_with tail parse_digits])).
  replace (_ * 10 + y `mod` 10) with y by (Z.div_mod_to_equations; lia).
  replace (_ * 10 + m `mod` 10) with m by (Z.div_mod_to_equations; lia).
  replace (_ * 10 + d `mod` 10) with d by (Z.div_mod_to_equations; lia).
  by apply new_date_valid.
Qed.

Lemma date_fromisoformat_extended s :
  iso_calendar_date s -> exists dt, date_fromisoformat interpreter (VStr s) = Ok dt.
Proof.
  intros (y & m & d & Hy & Hm & Hd & ->).
  exists (Date y m d). by apply isoformat_fromisoformat.
Qed.

Lemma date_fromisoformat_spec s :
  interpreter = cpython_3_10 ->
  (exists dt, date_fromisoformat interpreter (VStr s) = Ok dt)
  <-> iso_calendar_date s.
Proof.
  intros Hpy. split; [|apply date_fromisoformat_extended].
  rewrite Hpy. intros [dt H].
  apply fromisoformat_isoformat in H as (-> & Hy & Hm & Hd).
  destruct dt as [y m d]. by exists y, m, d.
Qed.

(** ** The validator computes the rules and never raises *)

Lemma new_date_raises y m d e :
  new_date y m d = Raise e -> e = ValueError.
Proof. unfold new_date. by case_match; intros [= <-]. Qed.

Lemma date_fromisoformat_raises v e :
  date_fromisoformat interpreter v = Raise e ->
  handles_type_or_value_error e = true.
Proof.
  unfold date_fromisoformat. intros H.
  repeat case_match; simplify_eq; try reflexivity;
    match goal with
    | H : new_date _ _ _ = Raise _ |- _ => by apply new_date_raises in H as ->
    end.
Qed.

Lemma validate_account_dict_eq d :
  validate_account_dict d = Ok (rules_hold d).
Proof.
  unfold validate_account_dict, rules_hold, field_is_str, email_ok, optional_ok,
    dict_get, dict_getitem, dict_contains, validate_email, re_match.
  destruct (d !! py "name") as [[]|]; cbn -[match_here]; try reflexivity.
  destruct (d !! py "email") as [[]|]; cbn -[match_here]; try reflexivity.
  destruct (match_here pattern 0 s0); cbn -[match_here]; try reflexivity.
  destruct (d !! py "address") as [[]|]; cbn -[match_here]; try reflexivity.
  assert (Hdate :
    (returned ←
       (if match d !! py "date_joined" with Some _ => true | None => false end
        then try_except
               (joined ← match d !! py "date_joined" with
                         | Some v => Ok v
                         | None => Raise (KeyError (py "date_joined"))
                         end;
                _ ← date_fromisoformat interpreter joined; Ok None)
               handles_type_or_value_error (Ok (Some false))
        else Ok None);
     match returned with Some b => Ok b | None => Ok true end)
    = Ok (match d !! py "date_joined" with
          | Some v => date_ok v
          | None => true
          end)).
  { destruct (d !! py "date_joined") as [v|]; cbn -[match_here]; [|reflexivity].
    unfold date_ok. destruct (date_fromisoformat interpreter v) eqn:E;
      cbn -[match_here]; [reflexivity|].
    by rewrite (date_fromisoformat_raises _ _ E). }
  destruct (d !! py "phone_number") as [[]|]; cbn -[match_here]; try reflexivity; exact Hdate.
Qed.

Lemma rules_hold_accepted d :
  rules_hold d = true <-> accepted_account_fields d.
Proof.
  unfold rules_hold, accepted_account_fields, name_rule, email_rule,
    address_rule, phone_number_rule, date_joined_parses, field_is_str,
    email_ok, optional_ok.
  rewrite !andb_true_iff. split.
  - intros ((((Hn & He) & Ha) & Hp) & Hj).
    repeat split.
    + destruct (d !! py "name") as [[]|]; try discriminate. eauto.
    + destruct (d !! py "email") as [[]|]; try discriminate.
      eexists. split; [reflexivity|]. by apply match_here_spec.
    + destruct (d !! py "address") as [[]|]; try discriminate. eauto.
    + intros v Hv. rewrite Hv in Hp. destruct v; try discriminate. eauto.
    + intros v Hv. rewrite Hv in Hj. unfold date_ok in Hj.
      destruct (date_fromisoformat interpreter v) as [dt|] eqn:E;
        [|discriminate].
      destruct v; try discriminate E. eauto.
  - intros ((n & Hn) & (e & He & Hm) & (a & Ha) & Hp & Hj).
    rewrite Hn, He, Ha. apply match_here_spec in Hm. rewrite Hm.
    repeat split.
    + destruct (d !! py "phone_number") as [v|]; [|done].
      by destruct (Hp v eq_refl) as [s ->].
    + destruct (d !! py "date_joined") as [v|]; [|done].
      destruct (Hj v eq_refl) as (s & dt & -> & Hdt).
      unfold date_ok. by rewrite Hdt.
Qed.

Lemma accepted_of_valid d :
  valid_account_fields d -> accepted_account_fields d.
Proof.
  intros (Hn & He & Ha & Hp & Hj). repeat split; try done.
  intros v Hv. destruct (Hj v Hv) as (s & -> & Hs).
  destruct (date_fromisoformat_extended s Hs) as [dt Hdt]. eauto.
Qed.

Lemma valid_of_accepted d :
  interpreter = cpython_3_10 ->
  accepted_account_fields d -> valid_account_fields d.
Proof.
  intros Hpy (Hn & He & Ha & Hp & Hj). repeat split; try done.
  intros v Hv. destruct (Hj v Hv) as (s & dt & -> & Hdt).
  exists s. split; [done|]. apply (date_fromisoformat_spec s Hpy). eauto.
Qed.

Lemma rules_hold_of_valid d :
  valid_account_fields d -> rules_hold d = true.
Proof. intros H. by apply rules_hold_accepted, accepted_of_valid. Qed.

Lemma rules_hold_spec d :
  interpreter = cpython_3_10 ->
  (rules_hold d = true <-> valid_account_fields d).
Proof.
  intros Hpy. split; [|apply rules_hold_of_valid].
  intros H. by apply valid_of_accepted, rules_hold_accepted.
Qed.

(** C1 (as amended). For every mapping, [validate_account_data] returns
    [True] exactly when [name] is present and a string, [email] is
    present, a string and matches the pattern, [address] is present and a
    string, [phone_number], when present, is a string, and [date_joined],
    when present, is a string that [date.fromisoformat] of the running
    interpreter parses.  Every valid calendar date written [YYYY-MM-DD]
    is such a string on every interpreter, so the rules of section 4.1
    are always sufficient; up to Python 3.10 nothing else is, and there
    the rules are also necessary. *)
Theorem validate_account_data_iff_parseable (d : dict) :
  (validate_account_data (VDict d) = Ok true <-> accepted_account_fields d) /\
  (valid_account_fields d -> validate_account_data (VDict d) = Ok true) /\
  (interpreter = cpython_3_10 ->
   (validate_account_data (VDict d) = Ok true <-> valid_account_fields d)).
Proof.
  cbn [validate_account_data]. rewrite validate_account_dict_eq.
  split; [|split].
  - rewrite <- rules_hold_accepted. split; [by intros [= ->] | by intros ->].
  - intros H. f_equal. by apply rules_hold_of_valid.
  - intros Hpy. rewrite <- (rules_hold_spec d Hpy).
    split; [by intros [= ->] | by intros ->].
Qed.

(** C2. On a mapping the validator always returns a boolean and never
    raises: a missing required field, a field that is not a string (the
    e-mail and the date included) and a date string that does not parse
    all give [False].  It is a function of its argument alone, so it has
    no effect on the store. *)
Theorem validate_account_data_total (d : dict) :
  (exists b, validate_account_data (VDict d) = Ok b) /\
  (forall k, k ∈ [py "name"; py "email"; py "address"] ->
     d !! k = None -> validate_account_data (VDict d) = Ok false) /\
  (forall k v, k ∈ account_keys ->
     d !! k = Some v -> isinstance_str v = false ->
     validate_account_data (VDict d) = Ok false) /\
  (forall s e, d !! py "date_joined" = Some (VStr s) ->
     date_fromisoformat interpreter (VStr s) = Raise e ->
     validate_account_data (VDict d) = Ok false).
Proof.
  cbn [validate_account_data]. rewrite validate_account_dict_eq.
  split; [by eexists|].
  unfold rules_hold, field_is_str, email_ok, optional_ok, account_keys.
  split; [|split].
  - intros k Hk Hnone. f_equal.
    repeat (apply elem_of_cons in Hk as [->|Hk]); [..|by apply elem_of_nil in Hk];
      rewrite Hnone; by rewrite ?andb_false_r.
  - intros k v Hk Hv Hstr. f_equal.
    repeat (apply elem_of_cons in Hk as [->|Hk]); [..|by apply elem_of_nil in Hk];
      rewrite Hv; try rewrite Hstr; destruct v; try discriminate Hstr;
      by rewrite ?andb_false_r.
  - intros s e Hv He. f_equal. rewrite Hv. unfold date_ok. rewrite He.
    by rewrite ?andb_false_r.
Qed.

(** C10. The validator asks for no non-empty string: a mapping whose
    [name], [address] or [phone_number] is the empty string, with the
    rules of the other fields satisfied, is accepted. *)
Theorem validate_accepts_empty_strings (d : dict) :
  (d !! py "name" = Some (VStr []) ->
   email_rule d -> address_rule d -> phone_number_rule d -> date_joined_rule d ->
   validate_account_data (VDict d) = Ok true) /\
  (d !! py "address" = Some (VStr []) ->
   name_rule d -> email_rule d -> phone_number_rule d -> date_joined_rule d ->
   validate_account_data (VDict d) = Ok true) /\
  (d !! py "phone_number" = Some (VStr []) ->
   name_rule d -> email_rule d -> address_rule d -> date_joined_rule d ->
   validate_account_data (VDict d) = Ok true).
Proof.
  cbn [validate_account_data]. rewrite validate_account_dict_eq.
  repeat split; intros; f_equal; apply rules_hold_of_valid;
    unfold valid_account_fields, name_rule, address_rule, phone_number_rule;
    repeat split; eauto.
  intros v Hv. simplify_eq. eauto.
Qed.

(** ** What each view answers and commits *)

Lemma merge_flush_change i (c : option Account.t) (t : gmap Z Account.t) :
  merge flush (<[i := c]> ∅) t =
  match c with
  | Some a => <[i := a]> t
  | None => delete i t
  end.
Proof.
  apply map_eq. intros j. rewrite lookup_merge.
  destruct (decide (i = j)) as [->|Hne].
  - rewrite lookup_insert_eq.
    destruct c; [rewrite lookup_insert_eq | rewrite lookup_delete_eq];
      by destruct (t !! j).
  - rewrite lookup_insert_ne, lookup_empty by done.
    destruct c; [rewrite lookup_insert_ne by done | rewrite lookup_delete_ne by done];
      by destruct (t !! j).
Qed.

Lemma merge_flush_empty (t : gmap Z Account.t) : merge flush ∅ t = t.
Proof.
  apply map_eq. intros j. rewrite lookup_merge, lookup_empty.
  by destruct (t !! j).
Qed.

Lemma Account_deserialize_id now self data a :
  Account_deserialize now self data = Ok a -> Account.id a = Account.id self.
Proof.
  unfold Account_deserialize. intros H.
  destruct data as [| | | | | |d]; try discriminate H.
  destruct (d !! py "name") as [[| | | |n| |]|]; try discriminate H.
  destruct (d !! py "email") as [[| | | |m| |]|]; try discriminate H.
  destruct (d !! py "address") as [[| | | |ad| |]|]; try discriminate H.
  destruct (match_here pattern 0 m); [|discriminate H].
  destruct (d !! py "phone_number") as [[| | | |p| |]|]; try discriminate H;
    (destruct (d !! py "date_joined") as [v|];
     [destruct (date_fromisoformat interpreter v); [|discriminate H]|]);
    cbn -[match_here] in H; by injection H as <-.
Qed.

Lemma serve_create_accounts e store :
  serve create_accounts e store =
  if truthy_str (content_type_header (request e))
     && bool_decide (content_type_header (request e) = Some (py "application/json"))
  then
    match json (request e) with
    | Ok posted =>
        match Account_deserialize (today e) Account_new posted with
        | Ok account =>
            let created := with_id (id_seq store) account in
            (Response HTTP_201_CREATED (JSON (VDict (Account_serialize created)))
               [(py "Location", py "/")],
             Database (<[id_seq store := created]> (table store))
                      (id_seq store + 1))
        | Raise x => (error_response x, store)
        end
    | Raise x => (error_response x, store)
    end
  else
    (Response HTTP_415_UNSUPPORTED_MEDIA_TYPE
       (Text (py "Content-Type must be " ++ py "application/json")) [],
     store).
Proof.
  unfold serve, create_accounts, call_deserialize, check_content_type,
    headers_get_content_type, get_json, date_today, lift, abort, Account_create,
    db_session_dirty.
  run_view.
  destruct (truthy_str _ && bool_decide _); [|reflexivity].
  cbn [db session]. destruct (json (request e)) as [posted|x]; [|reflexivity].
  destruct (Account_deserialize _ _ posted) as [account|x] eqn:Hdes;
    [|reflexivity].
  apply Account_deserialize_id in Hdes. cbn [Account_new Account.id] in Hdes.
  rewrite Hdes. cbn [db session table id_seq].
  by rewrite (merge_flush_change _ (Some _)).
Qed.

Lemma serve_get_accounts account_id e store :
  serve (get_accounts account_id) e store =
  match table store !! account_id with
  | Some account =>
      (Response HTTP_200_OK (JSON (VDict (Account_serialize account))) [], store)
  | None =>
      (Response HTTP_404_NOT_FOUND
         (Text (py "Account with id [" ++ str_of_int account_id
                  ++ py "] could not be found.")) [],
       store)
  end.
Proof.
  unfold serve, get_accounts, Account_find, Account_query_get, lift, abort.
  run_view; cbn [session db]. rewrite lookup_empty.
  by destruct (table store !! account_id).
Qed.

Lemma serve_update_account account_id e store :
  serve (update_account account_id) e store =
  match table store !! account_id with
  | Some account =>
      match json (request e) with
      | Ok account_data =>
          match validate_account_data account_data with
          | Ok true =>
              match Account_deserialize (today e) account account_data with
              | Ok updated =>
                  (Response HTTP_200_OK
                     (JSON (VDict (Account_serialize updated))) [],
                   Database
                     (match Account.id updated with
                      | Some i => <[i := updated]> (table store)
                      | None => table store
                      end)
                     (id_seq store))
              | Raise x => (error_response x, store)
              end
          | Ok false =>
              (Response HTTP_400_BAD_REQUEST
                 (Text (py "Invalid account data provided.")) [],
               store)
          | Raise x => (error_response x, store)
          end
      | Raise x => (error_response x, store)
      end
  | None =>
      (Response HTTP_404_NOT_FOUND
         (Text (py "Account with id [" ++ str_of_int account_id
                  ++ py "] was not found.")) [],
       store)
  end.
Proof.
  unfold serve, update_account, call_deserialize, Account_query_get, get_json,
    date_today, lift, abort, db_session_dirty, db_session_commit.
  run_view; cbn [session db]. rewrite lookup_empty.
  destruct (table store !! account_id) as [account|]; [|reflexivity].
  destruct (json (request e)) as [account_data|x]; [|reflexivity].
  destruct (validate_account_data account_data) as [[|]|x]; try reflexivity.
  cbn [negb]. destruct (Account_deserialize _ _ _) as [updated|x]; [|reflexivity].
  destruct (Account.id updated) as [i|]; cbn [db session table id_seq].
  - by rewrite (merge_flush_change _ (Some _)).
  - by rewrite merge_flush_empty.
Qed.

Lemma serve_delete_account account_id e store :
  serve (delete_account account_id) e store =
  match table store !! account_id with
  | Some account =>
      match Account.id account with
      | Some i =>
          (Response HTTP_204_NO_CONTENT (Text []) [],
           Database (delete i (table store)) (id_seq store))
      | None => (error_response InvalidRequestError, store)
      end
  | None =>
      (Response HTTP_404_NOT_FOUND
         (Text (py "Account with id [" ++ str_of_int account_id
                  ++ py "] was not found.")) [],
       store)
  end.
Proof.
  unfold serve, delete_account, Account_query_get, lift, abort,
    db_session_delete, db_session_commit.
  run_view; cbn [session db]. rewrite lookup_empty.
  destruct (table store !! account_id) as [account|]; [|reflexivity].
  destruct (Account.id account) as [i|]; [|reflexivity].
  cbn [db session table id_seq]. by rewrite (merge_flush_change _ None).
Qed.

(** ** The store's invariant is kept by every view *)

Lemma wf_store_insert store i a :
  wf_store store -> Account.id a = Some i -> i < id_seq store ->
  wf_store (Database (<[i := a]> (table store)) (id_seq store)).
Proof.
  intros Hwf Hid Hlt j b. cbn [table id_seq].
  destruct (decide (i = j)) as [->|Hne].
  - rewrite lookup_insert_eq. by intros [= <-].
  - rewrite lookup_insert_ne by done. apply Hwf.
Qed.

Lemma wf_store_create store a :
  wf_store store ->
  wf_store (Database (<[id_seq store := with_id (id_seq store) a]> (table store))
                     (id_seq store + 1)).
Proof.
  intros Hwf j b. cbn [table id_seq].
  destruct (decide (id_seq store = j)) as [<-|Hne].
  - rewrite lookup_insert_eq. intros [= <-]. split; [reflexivity | lia].
  - rewrite lookup_insert_ne by done. intros Hj.
    destruct (Hwf _ _ Hj). split; [done | lia].
Qed.

Lemma wf_store_delete store i :
  wf_store store -> wf_store (Database (delete i (table store)) (id_seq store)).
Proof.
  intros Hwf j b. cbn [table id_seq]. rewrite lookup_delete_Some.
  intros [_ Hj]. by apply Hwf.
Qed.

Lemma wf_store_fresh store :
  wf_store store -> table store !! id_seq store = None.
Proof.
  intros Hwf. destruct (table store !! id_seq store) as [a|] eqn:E; [|done].
  destruct (Hwf _ _ E). lia.
Qed.

Lemma wf_store_empty n : wf_store (Database ∅ n).
Proof. intros i a. cbn [table]. by rewrite lookup_empty. Qed.


(** ** Serialization and deserialization *)

Lemma Account_serialize_lookup (a : Account.t) :
  Account_serialize a !! py "id"
    = Some (match Account.id a with Some i => VInt i | None => VNone end) /\
  Account_serialize a !! py "name" = Some (json_of_opt_str (Account.name a)) /\
  Account_serialize a !! py "email" = Some (json_of_opt_str (Account.email a)) /\
  Account_serialize a !! py "address" = Some (json_of_opt_str (Account.address a)) /\
  Account_serialize a !! py "phone_number"
    = Some (json_of_opt_str (Account.phone_number a)) /\
  Account_serialize a !! py "date_joined"
    = Some (json_of_opt_str (isoformat <$> Account.date_joined a)).
Proof. destruct a. repeat split; vm_compute; reflexivity. Qed.

(** Where only [YYYY-MM-DD] can have been read, the date read is
    rendered back as the string it was read from. *)
Lemma date_round_trip d v joined :
  date_in_extended_form d ->
  d !! py "date_joined" = Some v ->
  date_fromisoformat interpreter v = Ok joined ->
  v = VStr (isoformat joined).
Proof.
  intros [Hpy | Hrule] Hv Hparse.
  - rewrite Hpy in Hparse. destruct v; try discriminate Hparse.
    by apply fromisoformat_isoformat in Hparse as [-> _].
  - destruct (Hrule v Hv) as (s & -> & y & m & dd & Hy & Hm & Hd & ->).
    rewrite isoformat_fromisoformat in Hparse by done.
    by injection Hparse as <-.
Qed.

Lemma Account_deserialize_Ok now self d a :
  Account_deserialize now self (VDict d) = Ok a ->
  rules_hold d = true /\ Account.id a = Account.id self /\
  fields_stored d a /\
  (date_in_extended_form d -> fields_from d a).
Proof.
  unfold Account_deserialize, rules_hold, field_is_str, email_ok, optional_ok.
  intros H.
  destruct (d !! py "name") as [[| | | |n| |]|] eqn:Hn; try discriminate H.
  destruct (d !! py "email") as [[| | | |m| |]|] eqn:Hm; try discriminate H.
  destruct (d !! py "address") as [[| | | |ad| |]|] eqn:Ha; try discriminate H.
  destruct (match_here pattern 0 m) eqn:Hpat; [|discriminate H].
  assert (Hphone : exists phone,
            json_of_opt_str phone = default VNone (d !! py "phone_number") /\
            optional_ok d (py "phone_number") isinstance_str = true /\
            match d !! py "phone_number" with
            | None => Ok None
            | Some (VStr p) => Ok (Some p)
            | Some _ => Raise DataValidationError
            end = Ok phone).
  { unfold optional_ok.
    destruct (d !! py "phone_number") as [[| | | |p| |]|]; try discriminate H;
      eexists; (split; [|split; reflexivity]); reflexivity. }
  destruct Hphone as (phone & Hphone & Hpok & Hpeq).
  unfold optional_ok in Hpok. rewrite Hpeq in H. cbn in H.
  assert (Hdate : exists joined,
            (forall v, d !! py "date_joined" = Some v ->
               date_fromisoformat interpreter v = Ok joined) /\
            optional_ok d (py "date_joined") date_ok = true /\
            match d !! py "date_joined" with
            | None => Ok now
            | Some v =>
                match date_fromisoformat interpreter v with
                | Ok parsed => Ok parsed
                | Raise _ => Raise DataValidationError
                end
            end = Ok joined).
  { unfold optional_ok, date_ok.
    destruct (d !! py "date_joined") as [v|].
    - destruct (date_fromisoformat interpreter v) as [parsed|] eqn:E;
        [|discriminate H].
      exists parsed. split; [|done]. by intros v' [= <-].
    - exists now. by split. }
  destruct Hdate as (joined & Hjoined & Hjok & Hjeq).
  unfold optional_ok in Hjok. rewrite Hjeq in H. cbn in H.
  injection H as <-. rewrite Hpok, Hjok. split; [done|]. split; [done|].
  split.
  - unfold fields_stored. cbn [Account.name Account.email Account.address
      Account.phone_number Account.date_joined json_of_opt_str].
    repeat split; try done.
    + intros v Hv. by rewrite Hphone, Hv.
    + intros v Hv. exists joined. split; [by apply Hjoined | done].
  - intros Hform k v Hk Hv. unfold account_keys in Hk.
    pose proof (Account_serialize_lookup
      (Account.Build (Account.id self) (Some n) (Some m) (Some ad) phone
         (Some joined))) as (_ & Sn & Sm & Sa & Sp & Sj).
    repeat (apply elem_of_cons in Hk as [->|Hk]); [..|by apply elem_of_nil in Hk].
    + rewrite Sn. cbn. congruence.
    + rewrite Sm. cbn. congruence.
    + rewrite Sa. cbn. congruence.
    + rewrite Sp. cbn. rewrite Hphone, Hv. reflexivity.
    + rewrite Sj. cbn.
      by rewrite (date_round_trip d v joined Hform Hv (Hjoined v Hv)).
Qed.

Lemma Account_deserialize_total now self d :
  rules_hold d = true ->
  exists a, Account_deserialize now self (VDict d) = Ok a.
Proof.
  unfold Account_deserialize, rules_hold, field_is_str, email_ok, optional_ok,
    date_ok.
  rewrite !andb_true_iff. intros ((((Hn & He) & Ha) & Hp) & Hj).
  destruct (d !! py "name") as [[| | | |n| |]|]; try discriminate Hn.
  destruct (d !! py "email") as [[| | | |m| |]|]; try discriminate He.
  destruct (d !! py "address") as [[| | | |ad| |]|]; try discriminate Ha.
  rewrite He.
  destruct (d !! py "phone_number") as [[| | | |p| |]|]; try discriminate Hp;
    (destruct (d !! py "date_joined") as [v|];
     [destruct (date_fromisoformat interpreter v); [|discriminate Hj]|]);
    by eexists.
Qed.

(** Deserialization fails with the error the handlers answer with 400. *)
Lemma Account_deserialize_Raise now self data x :
  Account_deserialize now self data = Raise x -> x = DataValidationError.
Proof.
  unfold Account_deserialize. intros H.
  repeat (case_match; simplify_eq; try reflexivity);
    cbn in H; repeat (case_match; simplify_eq; try reflexivity);
    congruence.
Qed.

(** The result of deserialization depends on the object it is called on
    through the id alone. *)
Lemma Account_deserialize_self now self other data a :
  Account_deserialize now self data = Ok a ->
  match Account.id other with
  | Some i => Account_deserialize now other data = Ok (with_id i a)
  | None => True
  end.
Proof.
  unfold Account_deserialize, with_id. intros H.
  destruct (Account.id other) as [i|] eqn:Hi; [|done].
  destruct data as [| | | | | |d]; try discriminate H.
  destruct (d !! py "name") as [[| | | |n| |]|]; try discriminate H.
  destruct (d !! py "email") as [[| | | |m| |]|]; try discriminate H.
  destruct (d !! py "address") as [[| | | |ad| |]|]; try discriminate H.
  destruct (match_here pattern 0 m); [|discriminate H].
  destruct (d !! py "phone_number") as [[| | | |p| |]|]; try discriminate H;
    (destruct (d !! py "date_joined") as [v|];
     [destruct (date_fromisoformat interpreter v); [|discriminate H]|]);
    cbn -[match_here] in H |- *; by injection H as <-.
Qed.

Lemma views_keep_wf_store e store :
  wf_store store ->
  wf_store (snd (serve create_accounts e store)) /\
  (forall i, wf_store (snd (serve (get_accounts i) e store))) /\
  (forall i, wf_store (snd (serve (update_account i) e store))) /\
  (forall i, wf_store (snd (serve (delete_account i) e store))).
Proof.
  intros Hwf. split; [|split; [|split]].
  - rewrite serve_create_accounts. repeat case_match; try done.
    by apply wf_store_create.
  - intros i. rewrite serve_get_accounts. by case_match.
  - intros i. rewrite serve_update_account.
    destruct (table store !! i) as [old|] eqn:Hold; [|done].
    destruct (json (request e)) as [data|]; [|done].
    destruct (validate_account_data data) as [[|]|]; [|done|done].
    destruct (Account_deserialize (today e) old data) as [updated|] eqn:Hd;
      [|done].
    destruct data as [| | | | | |d]; try discriminate Hd.
    apply Account_deserialize_id in Hd as Hid.
    destruct (Hwf _ _ Hold) as [Hi Hlt]. rewrite Hid, Hi. cbn [snd].
    apply wf_store_insert; [done | congruence | done].
  - intros i. rewrite serve_delete_account. repeat case_match; try done.
    by apply wf_store_delete.
Qed.

(** ** The HTTP contract *)

(** C3. A POST whose Content-Type is not [application/json], the absent
    header included, is answered 415 and leaves the store as it was. *)
Theorem create_accounts_unsupported_media_type e store :
  content_type_header (request e) <> Some (py "application/json") ->
  status_code (fst (serve create_accounts e store)) = 415 /\
  snd (serve create_accounts e store) = store.
Proof.
  intros Hct. rewrite serve_create_accounts.
  rewrite (bool_decide_eq_false_2 _ Hct), andb_false_r. by split.
Qed.

(** C4. A POST with Content-Type [application/json] whose body
    deserializes into valid account fields is answered 201 with the
    serialization of the new account, which carries the integer id the
    server generated, and with a [Location] header; the account is in the
    store under that id, which no earlier record had. *)
Theorem create_accounts_created e store posted account :
  content_type_header (request e) = Some (py "application/json") ->
  json (request e) = Ok posted ->
  Account_deserialize (today e) Account_new posted = Ok account ->
  let created := with_id (id_seq store) account in
  serve create_accounts e store =
    (Response 201 (JSON (VDict (Account_serialize created)))
       [(py "Location", py "/")],
     Database (<[id_seq store := created]> (table store)) (id_seq store + 1)) /\
  Account_serialize created !! py "id" = Some (VInt (id_seq store)) /\
  (wf_store store -> table store !! id_seq store = None).
Proof.
  intros Hct Hjson Hdes created. rewrite serve_create_accounts.
  rewrite Hct, Hjson, Hdes. rewrite bool_decide_eq_true_2 by done.
  split; [reflexivity|]. split; [|apply wf_store_fresh].
  by destruct (Account_serialize_lookup created) as (-> & _).
Qed.

(** A POST whose body does not deserialize is answered 400 and creates
    nothing. *)
Lemma create_accounts_bad_request e store posted x :
  content_type_header (request e) = Some (py "application/json") ->
  json (request e) = Ok posted ->
  Account_deserialize (today e) Account_new posted = Raise x ->
  serve create_accounts e store =
    (Response 400 (Text (py "Bad Request")) [], store).
Proof.
  intros Hct Hjson Hdes. rewrite serve_create_accounts, Hct, Hjson, Hdes.
  rewrite bool_decide_eq_true_2 by done.
  by rewrite (Account_deserialize_Raise _ _ _ _ Hdes).
Qed.

(** C5. A PUT on an existing record with a body that passes validation is
    answered 200 with the serialized updated account.  The stored record
    is replaced: it keeps its id, every field the body gives has the
    submitted value, and nothing else of the old record is kept.  The
    date is held as the date the submitted string was read as; it is
    shown as the submitted string itself wherever that string can only be
    [YYYY-MM-DD], which up to Python 3.10 is always. *)
Theorem update_account_replaces i e store old d :
  wf_store store ->
  table store !! i = Some old ->
  json (request e) = Ok (VDict d) ->
  validate_account_data (VDict d) = Ok true ->
  exists updated,
    serve (update_account i) e store =
      (Response 200 (JSON (VDict (Account_serialize updated))) [],
       Database (<[i := updated]> (table store)) (id_seq store)) /\
    Account.id updated = Some i /\
    fields_stored d updated /\
    (date_in_extended_form d -> fields_from d updated) /\
    exists fresh,
      Account_deserialize (today e) Account_new (VDict d) = Ok fresh /\
      updated = with_id i fresh.
Proof.
  intros Hwf Hold Hjson Hvalid.
  destruct (Hwf _ _ Hold) as [Hid _].
  pose proof Hvalid as Hrules. cbn [validate_account_data] in Hrules.
  rewrite validate_account_dict_eq in Hrules. injection Hrules as Hrules.
  destruct (Account_deserialize_total (today e) Account_new d Hrules)
    as [fresh Hfresh].
  pose proof (Account_deserialize_self _ _ old _ _ Hfresh) as Hupd.
  rewrite Hid in Hupd.
  exists (with_id i fresh).
  rewrite serve_update_account, Hold, Hjson, Hvalid, Hupd.
  split; [reflexivity|]. split; [reflexivity|].
  apply Account_deserialize_Ok in Hupd as (_ & _ & Hstored & Hshown).
  split; [done|]. split; [done|]. by exists fresh.
Qed.

(** A PUT on an existing record with a body on which the validator
    returns [False] is answered 400 and changes nothing: the store, and
    so the stored record, is what it was before the request. *)
Lemma update_account_invalid i e store old body :
  table store !! i = Some old ->
  json (request e) = Ok body ->
  validate_account_data body = Ok false ->
  serve (update_account i) e store =
    (Response 400 (Text (py "Invalid account data provided.")) [], store) /\
  table (snd (serve (update_account i) e store)) !! i = Some old.
Proof.
  intros Hold Hjson Hinvalid.
  rewrite serve_update_account, Hold, Hjson, Hinvalid. by split.
Qed.

(** C7. For an id that is not in the store, GET and DELETE are both
    answered 404.  DELETE of an existing account is answered 204 with an
    empty body and removes the record and no other, so that a second
    DELETE of the same id is answered 404. *)
Theorem get_delete_not_found i e store :
  (table store !! i = None ->
   status_code (fst (serve (get_accounts i) e store)) = 404 /\
   status_code (fst (serve (delete_account i) e store)) = 404 /\
   snd (serve (delete_account i) e store) = store) /\
  (wf_store store -> is_Some (table store !! i) ->
   exists store',
     serve (delete_account i) e store = (Response 204 (Text []) [], store') /\
     table store' = delete i (table store) /\
     forall e', status_code (fst (serve (delete_account i) e' store')) = 404).
Proof.
  split.
  - intros Hnone. rewrite serve_get_accounts, serve_delete_account, Hnone.
    by repeat split.
  - intros Hwf [a Ha]. destruct (Hwf _ _ Ha) as [Hid _].
    exists (Database (delete i (table store)) (id_seq store)).
    rewrite serve_delete_account, Ha, Hid. split; [reflexivity|].
    split; [reflexivity|].
    intros e'. rewrite serve_delete_account. cbn [table].
    by rewrite lookup_delete_eq.
Qed.

(** C8. Creating an account from a valid payload and then reading the
    account at the returned id gives a record whose fields are those of
    the payload: every account key the payload has comes back with the
    value it was sent with.  A valid payload is one the validator accepts
    and whose date, if it has one, is [YYYY-MM-DD] as section 4.1 asks,
    which up to Python 3.10 the validator's acceptance already implies. *)
Theorem create_then_read_roundtrip e e' store d :
  content_type_header (request e) = Some (py "application/json") ->
  json (request e) = Ok (VDict d) ->
  validate_account_data (VDict d) = Ok true ->
  date_in_extended_form d ->
  exists i created store' read,
    serve create_accounts e store =
      (Response 201 (JSON (VDict created)) [(py "Location", py "/")], store') /\
    created !! py "id" = Some (VInt i) /\
    serve (get_accounts i) e' store' = (Response 200 (JSON (VDict read)) [], store') /\
    forall k v, k ∈ account_keys -> d !! k = Some v -> read !! k = Some v.
Proof.
  intros Hct Hjson Hvalid Hform.
  cbn [validate_account_data] in Hvalid.
  rewrite validate_account_dict_eq in Hvalid. injection Hvalid as Hrules.
  destruct (Account_deserialize_total (today e) Account_new d Hrules)
    as [account Hdes].
  pose proof (Account_deserialize_self _ _ (with_id (id_seq store) account)
                _ _ Hdes) as Hcreated.
  cbn [with_id Account.id] in Hcreated.
  apply Account_deserialize_Ok in Hcreated as (_ & _ & _ & Hfields).
  specialize (Hfields Hform).
  set (created := with_id (id_seq store) account) in *.
  exists (id_seq store), (Account_serialize created),
    (Database (<[id_seq store := created]> (table store)) (id_seq store + 1)),
    (Account_serialize created).
  rewrite serve_create_accounts, Hct, Hjson, Hdes.
  rewrite bool_decide_eq_true_2 by done.
  split; [reflexivity|]. split.
  { by destruct (Account_serialize_lookup created) as (-> & _). }
  split; [|exact Hfields].
  rewrite serve_get_accounts. cbn [table]. by rewrite lookup_insert_eq.
Qed.

(** C9. PUT looks the record up before it looks at the body: for an id
    that is not in the store the answer is 404 whatever the body is, valid,
    invalid or not decodable, and the store is left as it was. *)
Theorem update_account_unknown_id i e store :
  table store !! i = None ->
  status_code (fst (serve (update_account i) e store)) = 404 /\
  snd (serve (update_account i) e store) = store.
Proof.
  intros Hnone. rewrite serve_update_account, Hnone. by split.
Qed.

(** ** More on [validate_email] *)

Lemma validate_email_str s :
  validate_email (VStr s) = Ok (match_here pattern 0%nat s).
Proof. reflexivity. Qed.

Lemma is_word_dot_dash_at : is_word_dot_dash 64 = false.
Proof. reflexivity. Qed.

Lemma is_word_dot_dash_newline : is_word_dot_dash 10 = false.
Proof. reflexivity. Qed.

Lemma is_word_sub c : is_word c = true -> is_word_dot_dash c = true.
Proof. unfold is_word_dot_dash. by intros ->. Qed.

Lemma forallb_elem_of (p : N -> bool) (l : pystr) c :
  forallb p l = true -> c ∈ l -> p c = true.
Proof.
  intros Hp Hc. apply list_elem_of_In in Hc.
  by apply (proj1 (forallb_forall p l) Hp).
Qed.

Lemma forallb_sub (p q : N -> bool) (l : pystr) :
  (forall c, p c = true -> q c = true) ->
  forallb p l = true -> forallb q l = true.
Proof.
  intros Hpq Hp. apply forallb_forall. intros c Hc. apply Hpq.
  by apply (proj1 (forallb_forall p l) Hp).
Qed.

Lemma filter_eq_none (p : N -> bool) (l : pystr) c :
  forallb p l = true -> p c = false -> filter (fun x => x = c) l = [].
Proof.
  intros Hp Hc. induction l as [|x l IH]; [done|].
  cbn in Hp. apply andb_true_iff in Hp as [Hx Hl].
  rewrite filter_cons_False; [by apply IH|]. intros ->. congruence.
Qed.

Lemma validate_email_accepted s :
  validate_email (VStr s) = Ok true ->
  exists local domain tld newline,
    s = local ++ 64%N :: domain ++ 46%N :: tld ++ newline /\
    local <> [] /\ forallb is_word_dot_dash local = true /\
    domain <> [] /\ forallb is_word_dot_dash domain = true /\
    tld <> [] /\ forallb is_word tld = true /\
    (newline = [] \/ newline = [10%N]).
Proof.
  rewrite validate_email_str. intros [= H].
  apply matches_email_pattern_shape. by apply match_here_spec.
Qed.

Lemma validate_email_of_shape local domain tld newline :
  local <> [] -> forallb is_word_dot_dash local = true ->
  domain <> [] -> forallb is_word_dot_dash domain = true ->
  tld <> [] -> forallb is_word tld = true ->
  newline = [] \/ newline = [10%N] ->
  validate_email (VStr (local ++ 64%N :: domain ++ 46%N :: tld ++ newline))
  = Ok true.
Proof.
  intros. rewrite validate_email_str. f_equal.
  apply match_here_spec. apply matches_email_pattern_shape.
  exists local, domain, tld, newline. by eauto 10.
Qed.

(** X1. [validate_email] accepts a string exactly when it is a local part,
    an [@], a domain, a dot and a last segment, all three non-empty, the
    first two of word characters, dots and dashes, the last of word
    characters, followed by nothing or by one newline. *)
Theorem validate_email_shape s :
  validate_email (VStr s) = Ok true <->
  exists local domain tld newline,
    s = local ++ 64%N :: domain ++ 46%N :: tld ++ newline /\
    local <> [] /\ forallb is_word_dot_dash local = true /\
    domain <> [] /\ forallb is_word_dot_dash domain = true /\
    tld <> [] /\ forallb is_word tld = true /\
    (newline = [] \/ newline = [10%N]).
Proof.
  split; [apply validate_email_accepted|].
  intros (local & domain & tld & newline & -> & ? & ? & ? & ? & ? & ? & ?).
  by apply validate_email_of_shape.
Qed.

Lemma validate_email_rejected s :
  validate_email (VStr s) <> Ok true -> validate_email (VStr s) = Ok false.
Proof. rewrite validate_email_str. by destruct (match_here pattern 0 s). Qed.

(** X2. An accepted e-mail address has exactly one [@]. *)
Theorem validate_email_one_at s :
  validate_email (VStr s) = Ok true ->
  length (filter (fun c => c = 64%N) s) = 1%nat.
Proof.
  intros H. apply validate_email_accepted in H
    as (local & domain & tld & newline & -> & _ & Hl & _ & Hd & _ & Ht & Hn).
  rewrite filter_app, filter_cons_True by done.
  rewrite filter_app, filter_cons_False by done.
  rewrite filter_app.
  rewrite (filter_eq_none _ local _ Hl is_word_dot_dash_at).
  rewrite (filter_eq_none _ domain _ Hd is_word_dot_dash_at).
  rewrite (filter_eq_none _ tld _ (forallb_sub _ _ _ is_word_sub Ht)
             is_word_dot_dash_at).
  by destruct Hn as [-> | ->].
Qed.

(** X3. A string without an [@] or without a dot is rejected: the answer
    is [False], not an exception. *)
Theorem validate_email_needs_at_and_dot s :
  64%N ∉ s \/ 46%N ∉ s -> validate_email (VStr s) = Ok false.
Proof.
  intros Hmiss. apply validate_email_rejected. intros H.
  apply validate_email_accepted in H
    as (local & domain & tld & newline & -> & _).
  destruct Hmiss as [Hno | Hno]; apply Hno; set_solver.
Qed.

(** X4. A string with a code point that is not a word character, a dot,
    a dash, an [@] or a newline (a space, say) is rejected. *)
Theorem validate_email_rejects_other_characters s c :
  c ∈ s -> is_word_dot_dash c = false -> c <> 64%N -> c <> 10%N ->
  validate_email (VStr s) = Ok false.
Proof.
  intros Hc Hclass Hat Hnl. apply validate_email_rejected. intros H.
  apply validate_email_accepted in H
    as (local & domain & tld & newline & -> & _ & Hl & _ & Hd & _ & Ht & Hn).
  assert (Hdot : is_word_dot_dash 46 = true) by reflexivity.
  pose proof (forallb_sub _ _ _ is_word_sub Ht) as Ht'.
  repeat (rewrite ?elem_of_app, ?elem_of_cons in Hc).
  destruct Hc as [Hc|[Hc|[Hc|[Hc|[Hc|Hc]]]]]; try congruence.
  - by rewrite (forallb_elem_of _ _ _ Hl Hc) in Hclass.
  - by rewrite (forallb_elem_of _ _ _ Hd Hc) in Hclass.
  - by rewrite (forallb_elem_of _ _ _ Ht' Hc) in Hclass.
  - destruct Hn as [Hn | Hn]; subst newline;
      [by apply elem_of_nil in Hc|].
    apply elem_of_cons in Hc as [?|Hc]; [done | by apply elem_of_nil in Hc].
Qed.

(** X5. The [$] of the pattern lets one final newline through: if a
    string that does not end in a newline is accepted, so is the string
    with a newline added; a string with two is never accepted. *)
Theorem validate_email_final_newline s :
  (validate_email (VStr s) = Ok true -> last s <> Some 10%N ->
   validate_email (VStr (s ++ [10%N])) = Ok true) /\
  validate_email (VStr (s ++ [10%N; 10%N])) = Ok false.
Proof.
  split.
  - intros H Hlast. apply validate_email_accepted in H
      as (local & domain & tld & newline & -> & Hl1 & Hl & Hd1 & Hd & Ht1 & Ht & Hn).
    destruct Hn as [-> | ->].
    + replace ((local ++ 64%N :: domain ++ 46%N :: tld ++ []) ++ [10%N])
        with (local ++ 64%N :: domain ++ 46%N :: tld ++ [10%N])
        by (rewrite app_nil_r; by repeat (rewrite <- app_assoc; cbn [app])).
      apply validate_email_of_shape; eauto.
    + exfalso. apply Hlast.
      replace (local ++ 64%N :: domain ++ 46%N :: tld ++ [10%N])
        with ((local ++ 64%N :: domain ++ 46%N :: tld) ++ [10%N])
        by (by repeat (rewrite <- app_assoc; cbn [app])).
      apply last_snoc.
  - apply validate_email_rejected. intros H.
    apply validate_email_accepted in H
      as (local & domain & tld & newline & Heq & _ & _ & _ & _ & Ht1 & Ht & Hn).
    assert (Hrev : reverse (s ++ [10%N; 10%N])
                   = reverse newline ++ reverse tld
                     ++ reverse (local ++ 64%N :: domain ++ [46%N])).
    { rewrite Heq.
      replace (local ++ 64%N :: domain ++ 46%N :: tld ++ newline)
        with ((local ++ 64%N :: domain ++ [46%N]) ++ tld ++ newline)
        by (by repeat (rewrite <- app_assoc; cbn [app])).
      by rewrite !reverse_app, <- app_assoc. }
    rewrite reverse_app in Hrev. cbn in Hrev.
    destruct (reverse tld) as [|c t'] eqn:Htld.
    { apply (f_equal reverse) in Htld. rewrite reverse_involutive in Htld.
      by apply Ht1. }
    assert (Hc : is_word c = true).
    { apply (forallb_elem_of _ tld); [done|].
      apply elem_of_reverse. rewrite Htld. apply elem_of_cons. by left. }
    assert (Hc10 : c <> 10%N).
    { intros ->. apply is_word_sub in Hc.
      by rewrite is_word_dot_dash_newline in Hc. }
    destruct Hn as [Hn | Hn]; subst newline; cbn in Hrev; congruence.
Qed.

(** ** More on [validate_account_data] *)

Lemma validate_account_data_rules d :
  validate_account_data (VDict d) = Ok (rules_hold d).
Proof. apply validate_account_dict_eq. Qed.

Lemma rules_hold_agree d d' :
  (forall k, k ∈ account_keys -> d !! k = d' !! k) ->
  rules_hold d = rules_hold d'.
Proof.
  intros Hagree.
  unfold rules_hold, field_is_str, email_ok, optional_ok.
  by rewrite !Hagree by (unfold account_keys; set_solver).
Qed.

(** X6. The verdict depends on the five account keys alone: two mappings
    that agree on them get the same answer, so any other key, [id]
    included, is ignored. *)
Theorem validate_account_data_other_keys d d' :
  (forall k, k ∈ account_keys -> d !! k = d' !! k) ->
  validate_account_data (VDict d) = validate_account_data (VDict d').
Proof.
  intros Hagree. rewrite !validate_account_data_rules.
  by rewrite (rules_hold_agree d d').
Qed.

(** X7. The name, the address and the phone number have no format: in a
    mapping the validator accepts, each of them can be replaced by any
    string and the mapping is still accepted. *)
Theorem validate_account_data_any_string d k s :
  validate_account_data (VDict d) = Ok true ->
  k ∈ [py "name"; py "address"; py "phone_number"] ->
  validate_account_data (VDict (<[k := VStr s]> d)) = Ok true.
Proof.
  rewrite !validate_account_data_rules. intros [= Hd] Hk. f_equal.
  revert Hd. unfold rules_hold, field_is_str, email_ok, optional_ok.
  rewrite !andb_true_iff. intros ((((Hn & He) & Ha) & Hp) & Hj).
  repeat (apply elem_of_cons in Hk as [->|Hk]); [..|by apply elem_of_nil in Hk];
    rewrite !lookup_insert; repeat case_decide; by simplify_eq.
Qed.

(** X8. The optional fields are optional: taking [phone_number] or
    [date_joined] out of a mapping the validator accepts leaves a mapping
    it accepts. *)
Theorem validate_account_data_drop_optional d k :
  validate_account_data (VDict d) = Ok true ->
  k ∈ [py "phone_number"; py "date_joined"] ->
  validate_account_data (VDict (delete k d)) = Ok true.
Proof.
  rewrite !validate_account_data_rules. intros [= Hd] Hk. f_equal.
  revert Hd. unfold rules_hold, field_is_str, email_ok, optional_ok.
  rewrite !andb_true_iff. intros ((((Hn & He) & Ha) & Hp) & Hj).
  repeat (apply elem_of_cons in Hk as [->|Hk]); [..|by apply elem_of_nil in Hk];
    rewrite !lookup_delete; repeat case_decide; by simplify_eq.
Qed.

(** ** More on the views *)

(** X9. [check_content_type] lets the request through exactly when the
    header is present, not empty and equal to the media type; in every
    other case, an empty media type included, it aborts with 415 and the
    message naming the media type.  It never touches the unit of work. *)
Theorem check_content_type_accepts_iff media_type e u :
  (content_type_header (request e) = Some media_type /\ media_type <> [] ->
   check_content_type media_type e u = (Ok tt, u)) /\
  (~ (content_type_header (request e) = Some media_type /\ media_type <> []) ->
   check_content_type media_type e u =
     (Raise (HTTPException 415 (py "Content-Type must be " ++ media_type)), u)).
Proof.
  unfold check_content_type, headers_get_content_type, abort, lift.
  run_view. split.
  - intros [-> Hne]. rewrite bool_decide_eq_true_2 by done.
    by destruct media_type.
  - intros Hnot.
    destruct (truthy_str _ && bool_decide _) eqn:Hc; [|done].
    exfalso. apply Hnot. apply andb_true_iff in Hc as [Ht Heq].
    apply bool_decide_eq_true_1 in Heq. rewrite Heq in Ht |- *.
    split; [done|]. by destruct media_type.
Qed.

(** X10. A PUT on an existing record whose JSON body is not an object
    (a list, a string, a number, [null]) makes the validator raise
    [AttributeError]: the view does not answer with its 400, and the
    store is left as it was. *)
Theorem update_account_non_object_body i e store old body :
  table store !! i = Some old ->
  json (request e) = Ok body ->
  (forall d, body <> VDict d) ->
  update_account i e (UnitOfWork store ∅)
    = (Raise AttributeError, UnitOfWork store ∅) /\
  snd (serve (update_account i) e store) = store.
Proof.
  intros Hold Hjson Hbody.
  assert (Hraise : validate_account_data body = Raise AttributeError).
  { destruct body; try reflexivity. by destruct (Hbody d). }
  split.
  - unfold update_account, Account_query_get, get_json, lift.
    run_view; cbn [session db]. rewrite lookup_empty, Hold, Hjson.
    by rewrite Hraise.
  - by rewrite serve_update_account, Hold, Hjson, Hraise.
Qed.

Lemma serve_list_accounts e store :
  serve list_accounts e store =
  (Response HTTP_200_OK
     (JSON (VList (map (fun account => VDict (Account_serialize account))
                     (map snd (merge_sort id_le (map_to_list (table store)))))))
     [],
   store).
Proof.
  unfold serve, list_accounts, Account_query_all.
  run_view; cbn [session db]. by rewrite merge_flush_empty.
Qed.

Lemma query_all_rows store :
  map snd (merge_sort id_le (map_to_list (table store))) ≡ₚ rows_of store.
Proof. unfold rows_of. by rewrite merge_sort_Permutation. Qed.

(** X11. [list_accounts] answers 200 for every request and leaves the
    store as it was; the list it returns is the serialization of the rows
    of the table, each row once, so it is empty for the empty table. *)
Theorem list_accounts_rows e store :
  exists rows,
    serve list_accounts e store =
      (Response 200
         (JSON (VList (map (fun account => VDict (Account_serialize account))
                         rows))) [],
       store) /\
    rows ≡ₚ rows_of store /\
    length rows = size (table store).
Proof.
  exists (map snd (merge_sort id_le (map_to_list (table store)))).
  split; [apply serve_list_accounts|]. split; [apply query_all_rows|].
  rewrite query_all_rows. unfold rows_of.
  by rewrite length_map, length_map_to_list.
Qed.

(** X12. The views that only read, [health], [index], [list_accounts]
    and [get_accounts], never change the store; and they, and
    [delete_account] too, never look at the request: headers, body and
    date make no difference to what they answer and do. *)
Theorem read_views_and_request e e' store account_id :
  (snd (serve health e store) = store /\
   snd (serve index e store) = store /\
   snd (serve list_accounts e store) = store /\
   snd (serve (get_accounts account_id) e store) = store) /\
  (serve health e store = serve health e' store /\
   serve index e store = serve index e' store /\
   serve list_accounts e store = serve list_accounts e' store /\
   serve (get_accounts account_id) e store
     = serve (get_accounts account_id) e' store /\
   serve (delete_account account_id) e store
     = serve (delete_account account_id) e' store).
Proof.
  rewrite !serve_list_accounts, !serve_get_accounts, !serve_delete_account.
  split; [|done]. repeat split. by destruct (table store !! account_id).
Qed.

Lemma serve_create_accounts_valid e store d :
  content_type_header (request e) = Some (py "application/json") ->
  json (request e) = Ok (VDict d) ->
  validate_account_data (VDict d) = Ok true ->
  exists fresh,
    Account_deserialize (today e) Account_new (VDict d) = Ok fresh /\
    serve create_accounts e store =
      (Response 201
         (JSON (VDict (Account_serialize (with_id (id_seq store) fresh))))
         [(py "Location", py "/")],
       Database (<[id_seq store := with_id (id_seq store) fresh]> (table store))
                (id_seq store + 1)).
Proof.
  intros Hct Hjson Hvalid. rewrite validate_account_data_rules in Hvalid.
  injection Hvalid as Hrules.
  destruct (Account_deserialize_total (today e) Account_new d Hrules)
    as [fresh Hfresh].
  exists fresh. split; [done|].
  rewrite serve_create_accounts, Hct, Hjson, Hfresh.
  by rewrite bool_decide_eq_true_2.
Qed.

Lemma serve_update_account_valid i e store old d :
  table store !! i = Some old ->
  Account.id old = Some i ->
  json (request e) = Ok (VDict d) ->
  validate_account_data (VDict d) = Ok true ->
  exists fresh,
    Account_deserialize (today e) Account_new (VDict d) = Ok fresh /\
    serve (update_account i) e store =
      (Response 200 (JSON (VDict (Account_serialize (with_id i fresh)))) [],
       Database (<[i := with_id i fresh]> (table store)) (id_seq store)).
Proof.
  intros Hold Hid Hjson Hvalid. pose proof Hvalid as Hrules.
  rewrite validate_account_data_rules in Hrules. injection Hrules as Hrules.
  destruct (Account_deserialize_total (today e) Account_new d Hrules)
    as [fresh Hfresh].
  pose proof (Account_deserialize_self _ _ old _ _ Hfresh) as Hupd.
  rewrite Hid in Hupd. exists fresh. split; [done|].
  by rewrite serve_update_account, Hold, Hjson, Hvalid, Hupd.
Qed.

Lemma fields_from_with_id now i fresh d :
  date_in_extended_form d ->
  Account_deserialize now Account_new (VDict d) = Ok fresh ->
  fields_from d (with_id i fresh).
Proof.
  intros Hform Hfresh.
  pose proof (Account_deserialize_self _ _ (with_id i fresh) _ _ Hfresh) as H.
  cbn [with_id Account.id] in H.
  apply Account_deserialize_Ok in H as (_ & _ & _ & H). by apply H.
Qed.

(** X13. After a POST with a valid payload, the listing has the rows it
    had before and, once more, the new account, whose fields are those of
    the payload. *)
Theorem create_then_list e e' store d :
  wf_store store ->
  content_type_header (request e) = Some (py "application/json") ->
  json (request e) = Ok (VDict d) ->
  validate_account_data (VDict d) = Ok true ->
  date_in_extended_form d ->
  exists created before after,
    serve list_accounts e' store =
      (Response 200
         (JSON (VList (map (fun a => VDict (Account_serialize a)) before))) [],
       store) /\
    serve list_accounts e' (snd (serve create_accounts e store)) =
      (Response 200
         (JSON (VList (map (fun a => VDict (Account_serialize a)) after))) [],
       snd (serve create_accounts e store)) /\
    after ≡ₚ created :: before /\
    fields_from d created.
Proof.
  intros Hwf Hct Hjson Hvalid Hform.
  destruct (serve_create_accounts_valid e store d Hct Hjson Hvalid)
    as (fresh & Hfresh & ->).
  exists (with_id (id_seq store) fresh). eexists. eexists.
  rewrite !serve_list_accounts. split; [reflexivity|]. split; [reflexivity|].
  split; [|by eapply fields_from_with_id].
  rewrite !query_all_rows. unfold rows_of. cbn [snd table].
  rewrite map_to_list_insert by by apply wf_store_fresh. done.
Qed.

(** X14. After the DELETE of an existing account, the listing has the
    rows it had before except that account. *)
Theorem delete_then_list i e e' store a :
  wf_store store ->
  table store !! i = Some a ->
  exists before after,
    serve list_accounts e' store =
      (Response 200
         (JSON (VList (map (fun a => VDict (Account_serialize a)) before))) [],
       store) /\
    serve list_accounts e' (snd (serve (delete_account i) e store)) =
      (Response 200
         (JSON (VList (map (fun a => VDict (Account_serialize a)) after))) [],
       snd (serve (delete_account i) e store)) /\
    before ≡ₚ a :: after.
Proof.
  intros Hwf Ha. destruct (Hwf _ _ Ha) as [Hid _].
  eexists. eexists. rewrite !serve_list_accounts.
  split; [reflexivity|]. split; [reflexivity|].
  rewrite serve_delete_account, Ha, Hid. rewrite !query_all_rows.
  unfold rows_of. cbn [snd table].
  by rewrite <- (map_to_list_delete _ _ _ Ha).
Qed.

(** X15. Whatever the request, a POST either answers 201 and adds one row
    under the next id of the sequence, or leaves the store as it was; in a
    well-formed store it never changes or removes a row that was there. *)
Theorem create_accounts_store_effect e store :
  (snd (serve create_accounts e store) = store \/
   exists created,
     Account.id created = Some (id_seq store) /\
     serve create_accounts e store =
       (Response 201 (JSON (VDict (Account_serialize created)))
          [(py "Location", py "/")],
        Database (<[id_seq store := created]> (table store))
                 (id_seq store + 1))) /\
  (wf_store store ->
   forall j a, table store !! j = Some a ->
     table (snd (serve create_accounts e store)) !! j = Some a).
Proof.
  split.
  - destruct (truthy_str (content_type_header (request e))
              && bool_decide (content_type_header (request e)
                              = Some (py "application/json"))) eqn:Hc;
      [|left; by rewrite serve_create_accounts, Hc].
    destruct (json (request e)) as [posted|x] eqn:Hjson;
      [|left; by rewrite serve_create_accounts, Hc, Hjson].
    destruct (Account_deserialize (today e) Account_new posted)
      as [account|x] eqn:Hdes;
      [|left; by rewrite serve_create_accounts, Hc, Hjson, Hdes].
    right. exists (with_id (id_seq store) account). split; [done|].
    by rewrite serve_create_accounts, Hc, Hjson, Hdes.
  - intros Hwf j a Hj. rewrite serve_create_accounts.
    repeat case_match; try done. cbn [snd table].
    rewrite lookup_insert_ne; [done|]. intros <-.
    by rewrite wf_store_fresh in Hj.
Qed.

(** X16. Whatever the request, a PUT creates no row, removes none, changes
    no row but the one it names and leaves the id sequence alone. *)
Theorem update_account_other_rows i e store :
  wf_store store ->
  id_seq (snd (serve (update_account i) e store)) = id_seq store /\
  dom (table (snd (serve (update_account i) e store))) = dom (table store) /\
  forall j, j <> i ->
    table (snd (serve (update_account i) e store)) !! j = table store !! j.
Proof.
  intros Hwf. rewrite serve_update_account.
  destruct (table store !! i) as [old|] eqn:Hold; [|done].
  destruct (json (request e)) as [account_data|]; [|done].
  destruct (validate_account_data account_data) as [[|]|]; [|done|done].
  destruct (Account_deserialize (today e) old account_data) as [updated|] eqn:Hd;
    [|done].
  apply Account_deserialize_id in Hd. destruct (Hwf _ _ Hold) as [Hid _].
  rewrite Hd, Hid. cbn [snd table id_seq]. split; [done|]. split.
  - rewrite dom_insert_L. apply elem_of_dom_2 in Hold.
    apply subseteq_union_1_L. by apply singleton_subseteq_l.
  - intros j Hj. by rewrite lookup_insert_ne.
Qed.

(** X17. A valid PUT is idempotent: served a second time on the store the
    first left, the same request gets the same answer and leaves the same
    store. *)
Theorem update_account_idempotent i e store old d :
  wf_store store ->
  table store !! i = Some old ->
  json (request e) = Ok (VDict d) ->
  validate_account_data (VDict d) = Ok true ->
  serve (update_account i) e (snd (serve (update_account i) e store))
  = serve (update_account i) e store.
Proof.
  intros Hwf Hold Hjson Hvalid. destruct (Hwf _ _ Hold) as [Hid _].
  destruct (serve_update_account_valid i e store old d Hold Hid Hjson Hvalid)
    as (fresh & Hfresh & Hfirst).
  rewrite Hfirst. cbn [snd].
  destruct (serve_update_account_valid i e
              (Database (<[i := with_id i fresh]> (table store)) (id_seq store))
              (with_id i fresh) d) as (fresh' & Hfresh' & ->); try done.
  { cbn [table]. apply lookup_insert_eq. }
  rewrite Hfresh in Hfresh'. injection Hfresh' as <-.
  cbn [table id_seq]. by rewrite insert_insert_eq.
Qed.

(** X18. After a valid PUT, a GET of the same id answers 200 with the id
    and with every account field of the payload as it was sent. *)
Theorem update_then_read i e e' store old d :
  wf_store store ->
  table store !! i = Some old ->
  json (request e) = Ok (VDict d) ->
  validate_account_data (VDict d) = Ok true ->
  date_in_extended_form d ->
  exists read,
    serve (get_accounts i) e' (snd (serve (update_account i) e store)) =
      (Response 200 (JSON (VDict read)) [],
       snd (serve (update_account i) e store)) /\
    read !! py "id" = Some (VInt i) /\
    forall k v, k ∈ account_keys -> d !! k = Some v -> read !! k = Some v.
Proof.
  intros Hwf Hold Hjson Hvalid Hform. destruct (Hwf _ _ Hold) as [Hid _].
  destruct (serve_update_account_valid i e store old d Hold Hid Hjson Hvalid)
    as (fresh & Hfresh & ->).
  exists (Account_serialize (with_id i fresh)).
  rewrite serve_get_accounts. cbn [snd table]. rewrite lookup_insert_eq.
  split; [done|]. split.
  - by destruct (Account_serialize_lookup (with_id i fresh)) as (-> & _).
  - by eapply fields_from_with_id.
Qed.

(** X19. After the DELETE of an existing account a GET of its id is
    answered 404, and a GET of any other id is answered as before. *)
Theorem delete_then_get i e e' store :
  wf_store store ->
  is_Some (table store !! i) ->
  status_code (fst (serve (get_accounts i) e'
                      (snd (serve (delete_account i) e store)))) = 404 /\
  forall j, j <> i ->
    fst (serve (get_accounts j) e' (snd (serve (delete_account i) e store)))
    = fst (serve (get_accounts j) e' store).
Proof.
  intros Hwf [a Ha]. destruct (Hwf _ _ Ha) as [Hid _].
  rewrite serve_delete_account, Ha, Hid. cbn [snd]. split.
  - rewrite serve_get_accounts. cbn [table]. by rewrite lookup_delete_eq.
  - intros j Hj. rewrite !serve_get_accounts. cbn [table].
    rewrite lookup_delete_ne by done. by destruct (table store !! j).
Qed.

(** X20. Every store the service can reach from an empty table, by
    serving any requests on any of its views, is well formed: each row is
    filed under its own id and the sequence is past every id in use, so a
    new account never takes the id of an existing one. *)
Theorem reachable_wf_store store :
  reachable store ->
  wf_store store /\ table store !! id_seq store = None.
Proof.
  intros Hreach. assert (Hwf : wf_store store).
  { induction Hreach as [n|store view e _ IH Hview].
    - apply wf_store_empty.
    - destruct (views_keep_wf_store e store IH) as (Hc & Hg & Hu & Hd).
      by destruct Hview. }
  split; [done | by apply wf_store_fresh].
Qed.

(** The payloads section 4.1 calls valid are the ones the validator
    accepts with a date that can only be [YYYY-MM-DD]. *)
Lemma valid_iff_accepted_extended d :
  valid_account_fields d <->
  validate_account_data (VDict d) = Ok true /\ date_in_extended_form d.
Proof.
  rewrite validate_account_data_rules. split.
  - intros H. split; [f_equal; by apply rules_hold_of_valid|].
    right. apply H.
  - intros [[= Hrules] [Hpy | Hdate]].
    + by apply rules_hold_spec.
    + apply rules_hold_accepted in Hrules as (Hn & He & Ha & Hp & _).
      by repeat split.
Qed.

End Service.

(** ** The theorems at the example data *)

Lemma ann_store_wf : wf_store ann_store.
Proof.
  apply (wf_store_insert (Database ∅ 2)); [apply wf_store_empty | done | done].
Qed.

Lemma update_payload_valid : valid_account_fields ascii_only update_payload.
Proof.
  apply (rules_hold_spec ascii_only cpython_3_10 update_payload eq_refl).
  vm_compute. reflexivity.
Qed.

Lemma update_payload_date_rule : date_joined_rule update_payload.
Proof. apply update_payload_valid. Qed.

Lemma validate_account_data_iff_parseable_witness :
  validate_account_data ascii_only cpython_3_11 (VDict update_payload) = Ok true /\
  (validate_account_data ascii_only cpython_3_10 (VDict update_payload) = Ok true
   <-> valid_account_fields ascii_only update_payload).
Proof.
  split.
  - apply (proj1 (proj2 (validate_account_data_iff_parseable ascii_only
                           cpython_3_11 update_payload))).
    apply update_payload_valid.
  - apply (proj2 (proj2 (validate_account_data_iff_parseable ascii_only
                           cpython_3_10 update_payload))).
    reflexivity.
Defined.

(** C1, as first stated, fails on Python 3.11: a [date_joined] written
    [20221231] is not [YYYY-MM-DD], and the validator returns [True]. *)
Lemma validate_account_data_compact_date :
  ~ (validate_account_data ascii_only cpython_3_11 (VDict compact_date_payload)
       = Ok true
     <-> valid_account_fields ascii_only compact_date_payload).
Proof.
  intros [Hvalid _].
  assert (Haccepted : validate_account_data ascii_only cpython_3_11
                        (VDict compact_date_payload) = Ok true)
    by (vm_compute; reflexivity).
  destruct (Hvalid Haccepted) as (_ & _ & _ & _ & Hdate).
  destruct (Hdate (VStr (py "20221231")))
    as (s & Hs & y & m & d & _ & _ & _ & Hform); [vm_compute; reflexivity|].
  injection Hs as <-. apply (f_equal length) in Hform.
  vm_compute in Hform. discriminate Hform.
Qed.

(** The same happens for a week date. *)
Lemma validate_account_data_week_date :
  validate_account_data ascii_only cpython_3_11
    (VDict (<[py "date_joined" := VStr (py "2022-W52-6")]> ann_payload))
  = Ok true /\
  date_fromisoformat cpython_3_11 (VStr (py "2022-W52-6")) = Ok (Date 2022 12 31).
Proof. split; vm_compute; reflexivity. Qed.

(** C6 (code bug). A PUT on an existing record whose body is the JSON
    list [[]] does not pass validation, and is not answered 400: the
    validator raises [AttributeError] where its docstring promises
    [False], and the request ends in a 500.  The store is unchanged. *)
Theorem update_account_list_body_answers_500 :
  validate_account_data ascii_only cpython_3_11 (VList [])
    = Raise AttributeError /\
  serve (update_account ascii_only cpython_3_11 1) list_body_request ann_store
    = (Response 500 (Text (py "Internal Server Error")) [], ann_store).
Proof. split; vm_compute; reflexivity. Qed.

Lemma validate_account_data_total_witness :
  validate_account_data ascii_only cpython_3_11 (VDict february_30_payload) = Ok false.
Proof.
  apply (proj2 (proj2 (proj2
           (validate_account_data_total ascii_only cpython_3_11 february_30_payload)))
           (py "2023-02-30") ValueError);
    vm_compute; reflexivity.
Defined.

Lemma validate_accepts_empty_strings_witness :
  validate_account_data ascii_only cpython_3_11 (VDict empty_strings_payload) = Ok true.
Proof.
  assert (Hrules : rules_hold ascii_only cpython_3_10 empty_strings_payload
                   = true)
    by (vm_compute; reflexivity).
  apply (rules_hold_spec ascii_only cpython_3_10 _ eq_refl) in Hrules
    as (Hn & He & Ha & Hp & Hj).
  apply (proj1 (validate_accepts_empty_strings ascii_only cpython_3_11
                  empty_strings_payload));
    [vm_compute; reflexivity | done..].
Defined.

Lemma create_accounts_unsupported_media_type_witness :
  status_code (fst (serve (create_accounts ascii_only cpython_3_11)
                      (json_request (Some (py "test/html")) ann_payload)
                      empty_store)) = 415 /\
  snd (serve (create_accounts ascii_only cpython_3_11)
         (json_request (Some (py "test/html")) ann_payload) empty_store)
  = empty_store.
Proof.
  apply create_accounts_unsupported_media_type.
  intros H. vm_compute in H. discriminate H.
Defined.

Lemma create_accounts_created_witness :
  serve (create_accounts ascii_only cpython_3_11)
    (json_request (Some (py "application/json")) ann_payload) empty_store =
  (Response 201 (JSON (VDict (Account_serialize (with_id 1 ann_fields))))
     [(py "Location", py "/")],
   ann_store).
Proof.
  apply (create_accounts_created ascii_only cpython_3_11
           (json_request (Some (py "application/json")) ann_payload)
           empty_store (VDict ann_payload) ann_fields);
    [reflexivity | reflexivity | vm_compute; reflexivity].
Defined.

Lemma update_account_replaces_witness :
  exists updated,
    serve (update_account ascii_only cpython_3_11 1)
      (json_request (Some (py "application/json")) update_payload) ann_store =
      (Response 200 (JSON (VDict (Account_serialize updated))) [],
       Database (<[1 := updated]> (table ann_store)) (id_seq ann_store)) /\
    Account.id updated = Some 1 /\
    fields_stored cpython_3_11 update_payload updated /\
    (date_in_extended_form cpython_3_11 update_payload ->
     fields_from update_payload updated) /\
    exists fresh,
      Account_deserialize ascii_only cpython_3_11 the_day Account_new (VDict update_payload)
        = Ok fresh /\
      updated = with_id 1 fresh.
Proof.
  apply (update_account_replaces ascii_only cpython_3_11 1
           (json_request (Some (py "application/json")) update_payload)
           ann_store (with_id 1 ann_fields) update_payload);
    [apply ann_store_wf | vm_compute; reflexivity | reflexivity
    | vm_compute; reflexivity].
Defined.

Lemma update_account_invalid_witness :
  serve (update_account ascii_only cpython_3_11 1)
    (json_request (Some (py "application/json")) invalid_payload) ann_store =
    (Response 400 (Text (py "Invalid account data provided.")) [], ann_store) /\
  table (snd (serve (update_account ascii_only cpython_3_11 1)
                (json_request (Some (py "application/json")) invalid_payload)
                ann_store)) !! 1 = Some (with_id 1 ann_fields).
Proof.
  apply (update_account_invalid ascii_only cpython_3_11 1
           (json_request (Some (py "application/json")) invalid_payload)
           ann_store (with_id 1 ann_fields) (VDict invalid_payload));
    [vm_compute; reflexivity | reflexivity | vm_compute; reflexivity].
Defined.

Lemma get_delete_not_found_witness :
  (status_code (fst (serve (get_accounts 0)
                       (json_request None ann_payload) ann_store)) = 404 /\
   status_code (fst (serve (delete_account 0)
                       (json_request None ann_payload) ann_store)) = 404 /\
   snd (serve (delete_account 0) (json_request None ann_payload) ann_store)
   = ann_store) /\
  (exists store',
     serve (delete_account 1) (json_request None ann_payload) ann_store =
       (Response 204 (Text []) [], store') /\
     table store' = delete 1 (table ann_store) /\
     forall e', status_code (fst (serve (delete_account 1) e' store')) = 404).
Proof.
  split.
  - apply (proj1 (get_delete_not_found 0 (json_request None ann_payload)
                    ann_store)).
    vm_compute. reflexivity.
  - apply (proj2 (get_delete_not_found 1 (json_request None ann_payload)
                    ann_store)).
    + apply ann_store_wf.
    + exists (with_id 1 ann_fields). vm_compute. reflexivity.
Defined.

Lemma create_then_read_roundtrip_witness :
  exists i created store' read,
    serve (create_accounts ascii_only cpython_3_11)
      (json_request (Some (py "application/json")) update_payload) ann_store =
      (Response 201 (JSON (VDict created)) [(py "Location", py "/")], store') /\
    created !! py "id" = Some (VInt i) /\
    serve (get_accounts i) (json_request None ann_payload) store' =
      (Response 200 (JSON (VDict read)) [], store') /\
    forall k v, k ∈ account_keys -> update_payload !! k = Some v ->
      read !! k = Some v.
Proof.
  apply (create_then_read_roundtrip ascii_only cpython_3_11
           (json_request (Some (py "application/json")) update_payload)
           (json_request None ann_payload) ann_store update_payload);
    [reflexivity | reflexivity | vm_compute; reflexivity
    | right; apply update_payload_date_rule].
Defined.

Lemma update_account_unknown_id_witness :
  status_code (fst (serve (update_account ascii_only cpython_3_11 0)
                      (json_request (Some (py "application/json")) ann_payload)
                      ann_store)) = 404 /\
  snd (serve (update_account ascii_only cpython_3_11 0)
         (json_request (Some (py "application/json")) ann_payload) ann_store)
  = ann_store.
Proof.
  apply update_account_unknown_id. vm_compute. reflexivity.
Defined.

Lemma validate_email_shape_witness :
  exists local domain tld newline,
    ann_email = local ++ 64%N :: domain ++ 46%N :: tld ++ newline /\
    local <> [] /\ forallb (is_word_dot_dash ascii_only) local = true /\
    domain <> [] /\ forallb (is_word_dot_dash ascii_only) domain = true /\
    tld <> [] /\ forallb (is_word ascii_only) tld = true /\
    (newline = [] \/ newline = [10%N]).
Proof.
  apply (proj1 (validate_email_shape ascii_only ann_email)).
  vm_compute. reflexivity.
Defined.

Lemma validate_email_one_at_witness :
  length (filter (fun c => c = 64%N) ann_email) = 1%nat.
Proof.
  apply (validate_email_one_at ascii_only ann_email). vm_compute. reflexivity.
Defined.

Lemma validate_email_needs_at_and_dot_witness :
  validate_email ascii_only (VStr (py "bad")) = Ok false.
Proof.
  apply validate_email_needs_at_and_dot. left.
  apply (bool_decide_unpack _). vm_compute. exact I.
Defined.

Lemma validate_email_rejects_other_characters_witness :
  validate_email ascii_only (VStr (py "ann smith@example.com")) = Ok false.
Proof.
  apply (validate_email_rejects_other_characters ascii_only _ 32%N);
    [apply (bool_decide_unpack _); vm_compute; exact I | reflexivity
    | discriminate | discriminate].
Defined.

Lemma validate_email_final_newline_witness :
  validate_email ascii_only (VStr (ann_email ++ [10%N])) = Ok true.
Proof.
  apply (proj1 (validate_email_final_newline ascii_only ann_email)).
  - vm_compute. reflexivity.
  - intros H. vm_compute in H. discriminate H.
Defined.

Lemma validate_account_data_other_keys_witness :
  validate_account_data ascii_only cpython_3_11 (VDict payload_with_id)
  = validate_account_data ascii_only cpython_3_11 (VDict ann_payload).
Proof.
  apply validate_account_data_other_keys. intros k Hk.
  unfold account_keys in Hk.
  repeat (apply elem_of_cons in Hk as [->|Hk]); [..|by apply elem_of_nil in Hk];
    vm_compute; reflexivity.
Defined.

Lemma validate_account_data_any_string_witness :
  validate_account_data ascii_only cpython_3_11
    (VDict (<[py "phone_number" := VStr (py "call me")]> ann_payload))
  = Ok true.
Proof.
  apply validate_account_data_any_string.
  - vm_compute. reflexivity.
  - apply (bool_decide_unpack _). vm_compute. exact I.
Defined.

Lemma validate_account_data_drop_optional_witness :
  validate_account_data ascii_only cpython_3_11
    (VDict (delete (py "date_joined") update_payload)) = Ok true.
Proof.
  apply validate_account_data_drop_optional.
  - vm_compute. reflexivity.
  - apply (bool_decide_unpack _). vm_compute. exact I.
Defined.

Lemma check_content_type_accepts_iff_witness :
  check_content_type (py "application/json")
    (json_request (Some (py "application/json")) ann_payload)
    (UnitOfWork empty_store ∅) = (Ok tt, UnitOfWork empty_store ∅) /\
  check_content_type (py "application/json")
    (json_request None ann_payload) (UnitOfWork empty_store ∅) =
    (Raise (HTTPException 415
              (py "Content-Type must be " ++ py "application/json")),
     UnitOfWork empty_store ∅).
Proof.
  split.
  - apply (proj1 (check_content_type_accepts_iff (py "application/json")
                    (json_request (Some (py "application/json")) ann_payload)
                    (UnitOfWork empty_store ∅))).
    split; [reflexivity | intros H; vm_compute in H; discriminate H].
  - apply (proj2 (check_content_type_accepts_iff (py "application/json")
                    (json_request None ann_payload)
                    (UnitOfWork empty_store ∅))).
    intros [H _]. discriminate H.
Defined.

Lemma update_account_non_object_body_witness :
  update_account ascii_only cpython_3_11 1 list_body_request (UnitOfWork ann_store ∅)
    = (Raise AttributeError, UnitOfWork ann_store ∅) /\
  snd (serve (update_account ascii_only cpython_3_11 1) list_body_request ann_store)
  = ann_store.
Proof.
  apply (update_account_non_object_body ascii_only cpython_3_11 1 list_body_request
           ann_store (with_id 1 ann_fields) (VList []));
    [vm_compute; reflexivity | reflexivity | intros d H; discriminate H].
Defined.

Lemma create_then_list_witness :
  exists created before after,
    serve list_accounts (json_request None ann_payload) ann_store =
      (Response 200
         (JSON (VList (map (fun a => VDict (Account_serialize a)) before))) [],
       ann_store) /\
    serve list_accounts (json_request None ann_payload)
      (snd (serve (create_accounts ascii_only cpython_3_11)
              (json_request (Some (py "application/json")) update_payload)
              ann_store)) =
      (Response 200
         (JSON (VList (map (fun a => VDict (Account_serialize a)) after))) [],
       snd (serve (create_accounts ascii_only cpython_3_11)
              (json_request (Some (py "application/json")) update_payload)
              ann_store)) /\
    after ≡ₚ created :: before /\
    fields_from update_payload created.
Proof.
  apply (create_then_list ascii_only cpython_3_11
           (json_request (Some (py "application/json")) update_payload)
           (json_request None ann_payload) ann_store update_payload);
    [apply ann_store_wf | reflexivity | reflexivity | vm_compute; reflexivity
    | right; apply update_payload_date_rule].
Defined.

Lemma delete_then_list_witness :
  exists before after,
    serve list_accounts (json_request None ann_payload) ann_store =
      (Response 200
         (JSON (VList (map (fun a => VDict (Account_serialize a)) before))) [],
       ann_store) /\
    serve list_accounts (json_request None ann_payload)
      (snd (serve (delete_account 1) (json_request None ann_payload) ann_store)) =
      (Response 200
         (JSON (VList (map (fun a => VDict (Account_serialize a)) after))) [],
       snd (serve (delete_account 1) (json_request None ann_payload) ann_store)) /\
    before ≡ₚ with_id 1 ann_fields :: after.
Proof.
  apply (delete_then_list 1 (json_request None ann_payload)
           (json_request None ann_payload) ann_store (with_id 1 ann_fields));
    [apply ann_store_wf | vm_compute; reflexivity].
Defined.

Lemma create_accounts_store_effect_witness :
  table (snd (serve (create_accounts ascii_only cpython_3_11)
                (json_request (Some (py "application/json")) update_payload)
                ann_store)) !! 1 = Some (with_id 1 ann_fields).
Proof.
  apply (proj2 (create_accounts_store_effect ascii_only cpython_3_11
                  (json_request (Some (py "application/json")) update_payload)
                  ann_store));
    [apply ann_store_wf | vm_compute; reflexivity].
Defined.

Lemma update_account_other_rows_witness :
  id_seq (snd (serve (update_account ascii_only cpython_3_11 1)
                 (json_request (Some (py "application/json")) update_payload)
                 ann_store)) = id_seq ann_store /\
  dom (table (snd (serve (update_account ascii_only cpython_3_11 1)
                     (json_request (Some (py "application/json")) update_payload)
                     ann_store))) = dom (table ann_store) /\
  forall j, j <> 1 ->
    table (snd (serve (update_account ascii_only cpython_3_11 1)
                  (json_request (Some (py "application/json")) update_payload)
                  ann_store)) !! j = table ann_store !! j.
Proof.
  apply (update_account_other_rows ascii_only cpython_3_11 1
           (json_request (Some (py "application/json")) update_payload)
           ann_store).
  apply ann_store_wf.
Defined.

Lemma update_account_idempotent_witness :
  serve (update_account ascii_only cpython_3_11 1)
    (json_request (Some (py "application/json")) update_payload)
    (snd (serve (update_account ascii_only cpython_3_11 1)
            (json_request (Some (py "application/json")) update_payload)
            ann_store))
  = serve (update_account ascii_only cpython_3_11 1)
      (json_request (Some (py "application/json")) update_payload) ann_store.
Proof.
  apply (update_account_idempotent ascii_only cpython_3_11 1
           (json_request (Some (py "application/json")) update_payload)
           ann_store (with_id 1 ann_fields) update_payload);
    [apply ann_store_wf | vm_compute; reflexivity | reflexivity
    | vm_compute; reflexivity].
Defined.

Lemma update_then_read_witness :
  exists read,
    serve (get_accounts 1) (json_request None ann_payload)
      (snd (serve (update_account ascii_only cpython_3_11 1)
              (json_request (Some (py "application/json")) update_payload)
              ann_store)) =
      (Response 200 (JSON (VDict read)) [],
       snd (serve (update_account ascii_only cpython_3_11 1)
              (json_request (Some (py "application/json")) update_payload)
              ann_store)) /\
    read !! py "id" = Some (VInt 1) /\
    forall k v, k ∈ account_keys -> update_payload !! k = Some v ->
      read !! k = Some v.
Proof.
  apply (update_then_read ascii_only cpython_3_11 1
           (json_request (Some (py "application/json")) update_payload)
           (json_request None ann_payload) ann_store (with_id 1 ann_fields)
           update_payload);
    [apply ann_store_wf | vm_compute; reflexivity | reflexivity
    | vm_compute; reflexivity | right; apply update_payload_date_rule].
Defined.

Lemma delete_then_get_witness :
  status_code (fst (serve (get_accounts 1) (json_request None ann_payload)
                      (snd (serve (delete_account 1)
                              (json_request None ann_payload) ann_store))))
  = 404 /\
  forall j, j <> 1 ->
    fst (serve (get_accounts j) (json_request None ann_payload)
           (snd (serve (delete_account 1) (json_request None ann_payload)
                   ann_store)))
    = fst (serve (get_accounts j) (json_request None ann_payload) ann_store).
Proof.
  apply (delete_then_get 1 (json_request None ann_payload)
           (json_request None ann_payload) ann_store);
    [apply ann_store_wf | exists (with_id 1 ann_fields); vm_compute; reflexivity].
Defined.

Lemma reachable_wf_store_witness :
  wf_store ann_store /\ table ann_store !! id_seq ann_store = None.
Proof.
  apply (reachable_wf_store ascii_only cpython_3_11 ann_store).
  replace ann_store
    with (snd (serve (create_accounts ascii_only cpython_3_11)
                 (json_request (Some (py "application/json")) ann_payload)
                 empty_store))
    by (vm_compute; reflexivity).
  apply reachable_serve; [apply reachable_empty | apply view_create_accounts].
Defined.
